(** * FullIATestingPage: the polling and state-reconciliation logic

    A shallow embedding of the stateful part of
    [frontend/src/pages/FullIATestingPage.tsx]: the toast queue, the
    elapsed-time ticker, the polling effect with its snapshot diffing, and
    the start / stop / clear handlers.

    Conventions.
    - React state ([useState]) and refs ([useRef]) of the component are the
      fields of one record [State]; a handler is a function on [State] that
      also returns the requests it sends to [agentApi].
    - An [async] handler is cut at its [await]: one function for the part
      that runs up to the request, one for the continuation, which receives
      the outcome of the request (resolved or rejected).
    - [Date.now()] and [Math.random()] are inputs ([Env]).
    - The page runs as a transition system, in two grains: [step], where
      each request settles before anything else happens, and [Live.act],
      where the requests in flight are part of the state and settle in
      any order.
    - JavaScript strings are [string]; a character stands for one code unit
      below U+0100.  Numbers that the code only uses as integers
      (milliseconds, counters) are [Z]. *)

From Stdlib Require Import ZArith QArith List String Ascii Bool Lia
  DecimalString.
Import ListNotations.

Local Open Scope string_scope.
Local Open Scope Z_scope.

(* ------------------------------------------------------------------ *)
(** ** Constants *)

Definition POLL_INTERVAL : Z := 1500.
Definition POLL_INTERVAL_ERROR : Z := 5000.
Definition TOAST_DURATION : Z := 5000.
Definition MAX_TOASTS : Z := 5.

(* ------------------------------------------------------------------ *)
(** ** JavaScript helpers *)

Module JS.

(** Truthiness of a string: every string but the empty one. *)
Definition truthy (s : string) : bool := negb (s =? "")%string.

(** Truthiness of [string | null | undefined]. *)
Definition otruthy (o : option string) : bool :=
  match o with
  | Some s => truthy s
  | None => false
  end.

(** [a || b] on optional strings. *)
Definition or_else (a b : option string) : option string :=
  if otruthy a then a else b.

(** White space and line terminators of ECMAScript that are below U+0100:
    TAB, LF, VT, FF, CR, SP and NBSP. *)
Definition isWhiteSpace (c : ascii) : bool :=
  let n := nat_of_ascii c in
  ((9 <=? n) && (n <=? 13) || (n =? 32) || (n =? 160))%nat.

Fixpoint trimStartL (l : list ascii) : list ascii :=
  match l with
  | [] => []
  | c :: r => if isWhiteSpace c then trimStartL r else l
  end.

(** [String.prototype.trim]. *)
Definition trim (s : string) : string :=
  string_of_list_ascii
    (rev (trimStartL (rev (trimStartL (list_ascii_of_string s))))).

(** [String.prototype.toUpperCase] on ASCII text: the letters a-z are
    mapped, every other code unit is kept.  It is applied to severities,
    which the agent writes in lower-case ASCII. *)
Definition upper (c : ascii) : ascii :=
  let n := nat_of_ascii c in
  if ((97 <=? n) && (n <=? 122))%nat then ascii_of_nat (n - 32) else c.

Fixpoint toUpperCase (s : string) : string :=
  match s with
  | EmptyString => EmptyString
  | String c r => String (upper c) (toUpperCase r)
  end.

(** An integer inside a template literal. *)
Definition show (z : Z) : string := NilZero.string_of_int (Z.to_int z).

(** [arr.slice(start)]: a negative [start] counts from the end, and the
    resulting index is clamped to [0, arr.length]. *)
Definition slice {A} (start : Z) (arr : list A) : list A :=
  let len := Z.of_nat (List.length arr) in
  let k := if start <? 0 then Z.max (len + start) 0 else Z.min start len in
  skipn (Z.to_nat k) arr.

(** [new Set(arr)] as the list of its elements in insertion order. *)
Fixpoint set_add (x : string) (s : list string) : list string :=
  match s with
  | [] => [x]
  | y :: r => if (y =? x)%string then s else y :: set_add x r
  end.

Definition new_Set (arr : list string) : list string :=
  fold_left (fun s x => set_add x s) arr [].

(** [set.has(x)]. *)
Definition has (s : list string) (x : string) : bool :=
  existsb (fun y => (y =? x)%string) s.

End JS.

(* ------------------------------------------------------------------ *)
(** ** Toast queue *)

Module Toast.
Record t := mk {
  id : string;
  message : string;
  severity : string;
  timestamp : Z
}.
End Toast.

(** What one call of [addToast] reads from its surroundings: [Date.now()]
    for the identifier, [Math.random().toString(36).slice(2, 6)], and
    [Date.now()] again for the timestamp. *)
Record Env := mkEnv {
  now : Z;
  random : string;
  stamp : Z
}.

(** The toast object that [addToast] builds. *)
Definition newToast (e : Env) (message severity : string) : Toast.t :=
  let id := JS.show (now e) ++ "-" ++ random e in
  Toast.mk id message severity (stamp e).

(** The updater that [addToast] passes to [setToasts]. *)
Definition addToast (e : Env) (message severity : string)
    (prev : list Toast.t) : list Toast.t :=
  (JS.slice (- (MAX_TOASTS - 1)) prev ++ [newToast e message severity])%list.

(** The updater of [dismissToast], also the one run by the expiry timer
    that [addToast] arms. *)
Definition dismissToast (id : string) (prev : list Toast.t) : list Toast.t :=
  filter (fun t => negb (Toast.id t =? id)%string) prev.

(** Operations on the queue, for sequences of them. *)
Inductive ToastOp :=
| Push (e : Env) (message severity : string)
| Dismiss (id : string).

Definition toastOp (q : list Toast.t) (o : ToastOp) : list Toast.t :=
  match o with
  | Push e m s => addToast e m s q
  | Dismiss id => dismissToast id q
  end.

Definition toastOps (ops : list ToastOp) (q : list Toast.t) : list Toast.t :=
  fold_left toastOp ops q.

(** The arguments of one [addToast] call: message and severity. *)
Definition ToastCall : Type := string * string.

(** Several [addToast] calls in a row; [envs k] is the clock and the random
    suffix that the [k]-th of them reads. *)
Fixpoint addToasts (envs : nat -> Env) (k : nat) (calls : list ToastCall)
    (q : list Toast.t) : list Toast.t :=
  match calls with
  | [] => q
  | (m, sev) :: r => addToasts envs (S k) r (addToast (envs k) m sev q)
  end.

(* ------------------------------------------------------------------ *)
(** ** Payloads of the agent API

    The interfaces are declared in [../types]; the fields below are the
    ones the page logic reads.  A timestamp is the value of
    [new Date(iso).getTime()], in milliseconds; [None] is an absent field. *)

Module AgentFinding.
Record t := mk {
  id : string;
  severity : string;
  title : string
}.
End AgentFinding.

Module AgentStatus.
Record t := mk {
  status : string;
  phase : string;
  progress : Z;
  started_at : option Z;
  completed_at : option Z;
  findings : option (list AgentFinding.t);
  findings_count : Z;
  scan_id : option string
}.
End AgentStatus.

Module AgentLog.
Record t := mk {
  level : string;
  message : string;
  source : string
}.
End AgentLog.

(** The record kept in [localStorage] under [SESSION_KEY]. *)
Module Session.
Record t := mk {
  agentId : string;
  target : string;
  startedAt : Z;
  status : string
}.
End Session.

(* ------------------------------------------------------------------ *)
(** ** Elapsed-time ticker *)

(** The body of the elapsed-time effect and of its [tick]: the value given
    to [setElapsedSeconds] when the clock reads [now], or [None] when the
    effect returns before setting anything ([status?.started_at] absent).
    [Math.floor (x / 1000)] on an integer [x] is [x / 1000] on [Z]. *)
Definition elapsedEffect (status : option AgentStatus.t) (isRunning : bool)
    (now : Z) : option Z :=
  match status with
  | None => None
  | Some s =>
    match AgentStatus.started_at s with
    | None => None
    | Some startTime =>
      if isRunning then Some ((now - startTime) / 1000)
      else
        let endTime :=
          match AgentStatus.completed_at s with
          | Some c => c
          | None => now
          end in
        Some (Z.max 0 ((endTime - startTime) / 1000))
    end
  end.

(* ------------------------------------------------------------------ *)
(** ** Snapshot diffing inside [poll] *)

(** Phase change detection: the toasts it raises. *)
Definition phaseChange (prevPhase : option string) (s : AgentStatus.t)
    : list ToastCall :=
  match prevPhase with
  | Some p =>
    if JS.truthy p && JS.truthy (AgentStatus.phase s)
       && negb (AgentStatus.phase s =? p)%string
    then [("Phase: " ++ AgentStatus.phase s, "info")%string]
    else []
  | None => []
  end.

(** [s.phase || null]. *)
Definition nextPhase (s : AgentStatus.t) : option string :=
  if JS.truthy (AgentStatus.phase s) then Some (AgentStatus.phase s) else None.

(** [prevStatusRef.current === lit]. *)
Definition prevIs (prevStatus : option string) (lit : string) : bool :=
  match prevStatus with
  | Some p => (p =? lit)%string
  | None => false
  end.

(** Status transition detection: the toasts it raises. *)
Definition statusTransition (prevStatus : option string) (s : AgentStatus.t)
    : list ToastCall :=
  if prevIs prevStatus "running" && (AgentStatus.status s =? "completed")%string
  then [("Pentest complete! " ++ JS.show (AgentStatus.findings_count s)
           ++ " findings", "completed")%string]
  else if prevIs prevStatus "running" && (AgentStatus.status s =? "error")%string
  then [("Pentest failed", "error")]
  else if prevIs prevStatus "running" && (AgentStatus.status s =? "stopped")%string
  then [("Pentest stopped", "info")]
  else [].

(** [s.findings || []]. *)
Definition findingsOf (s : AgentStatus.t) : list AgentFinding.t :=
  match AgentStatus.findings s with
  | Some l => l
  | None => []
  end.

(** [new Set((s.findings || []).map(f => f.id))]. *)
Definition currentIds (s : AgentStatus.t) : list string :=
  JS.new_Set (map AgentFinding.id (findingsOf s)).

(** New finding detection: [newIds], empty when the guard
    [seenFindingIdsRef.current.size > 0] skips the detection. *)
Definition newIds (seen : list string) (s : AgentStatus.t) : list string :=
  if 0 <? Z.of_nat (List.length seen)
  then filter (fun id => negb (JS.has seen id)) (currentIds s)
  else [].

(** The toast of one new identifier: [s.findings?.find(x => x.id === id)],
    and a toast when it is found. *)
Definition findingToast (s : AgentStatus.t) (id : string) : list ToastCall :=
  match find (fun x => (AgentFinding.id x =? id)%string) (findingsOf s) with
  | Some f =>
    [(JS.toUpperCase (AgentFinding.severity f) ++ ": " ++ AgentFinding.title f,
      AgentFinding.severity f)%string]
  | None => []
  end.

(** [newIds.forEach(...)]. *)
Definition findingToasts (s : AgentStatus.t) (ids : list string)
    : list ToastCall :=
  flat_map (findingToast s) ids.

(* ------------------------------------------------------------------ *)
(** ** The state of the page component *)

Inductive Tab := findingsTab | logsTab.

(** The [useState] cells, the refs, and the [localStorage] entry of
    [SESSION_KEY].  [pollRef] is the live interval that the polling effect
    registered with [setInterval], given by its period; [None] once
    [clearInterval] ran (or before any was registered).  [localStorage]
    holds the session record that [JSON.parse] reads back. *)
Record State := mkState {
  target : string;
  authType : string;
  authValue : string;
  selectedProvider : string;
  selectedModel : string;
  promptContent : option string;
  agentId : option string;
  status : option AgentStatus.t;
  isRunning : bool;
  logs : list AgentLog.t;
  error : option string;
  elapsedSeconds : Z;
  activeTab : Tab;
  toasts : list Toast.t;
  newFindingIds : list string;
  connectionLost : bool;
  reportId : option string;
  pollRef : option Z;
  seenFindingIdsRef : list string;
  prevPhaseRef : option string;
  prevStatusRef : option string;
  consecutiveErrorsRef : Z;
  localStorage : option Session.t
}.

(** Setters: [setX v] is the component's state setter, [set_r v] the
    assignment [r.current = v]. *)
Definition setTarget (v : string) (st : State) : State :=
  {| target := v; authType := authType st; authValue := authValue st;
     selectedProvider := selectedProvider st;
     selectedModel := selectedModel st; promptContent := promptContent st;
     agentId := agentId st; status := status st; isRunning := isRunning st;
     logs := logs st; error := error st;
     elapsedSeconds := elapsedSeconds st; activeTab := activeTab st;
     toasts := toasts st; newFindingIds := newFindingIds st;
     connectionLost := connectionLost st; reportId := reportId st;
     pollRef := pollRef st; seenFindingIdsRef := seenFindingIdsRef st;
     prevPhaseRef := prevPhaseRef st; prevStatusRef := prevStatusRef st;
     consecutiveErrorsRef := consecutiveErrorsRef st;
     localStorage := localStorage st |}.

Definition setPromptContent (v : option string) (st : State) : State :=
  {| target := target st; authType := authType st;
     authValue := authValue st; selectedProvider := selectedProvider st;
     selectedModel := selectedModel st; promptContent := v;
     agentId := agentId st; status := status st; isRunning := isRunning st;
     logs := logs st; error := error st;
     elapsedSeconds := elapsedSeconds st; activeTab := activeTab st;
     toasts := toasts st; newFindingIds := newFindingIds st;
     connectionLost := connectionLost st; reportId := reportId st;
     pollRef := pollRef st; seenFindingIdsRef := seenFindingIdsRef st;
     prevPhaseRef := prevPhaseRef st; prevStatusRef := prevStatusRef st;
     consecutiveErrorsRef := consecutiveErrorsRef st;
     localStorage := localStorage st |}.

Definition setAgentId (v : option string) (st : State) : State :=
  {| target := target st; authType := authType st;
     authValue := authValue st; selectedProvider := selectedProvider st;
     selectedModel := selectedModel st; promptContent := promptContent st;
     agentId := v; status := status st; isRunning := isRunning st;
     logs := logs st; error := error st;
     elapsedSeconds := elapsedSeconds st; activeTab := activeTab st;
     toasts := toasts st; newFindingIds := newFindingIds st;
     connectionLost := connectionLost st; reportId := reportId st;
     pollRef := pollRef st; seenFindingIdsRef := seenFindingIdsRef st;
     prevPhaseRef := prevPhaseRef st; prevStatusRef := prevStatusRef st;
     consecutiveErrorsRef := consecutiveErrorsRef st;
     localStorage := localStorage st |}.

Definition setStatus (v : option AgentStatus.t) (st : State) : State :=
  {| target := target st; authType := authType st;
     authValue := authValue st; selectedProvider := selectedProvider st;
     selectedModel := selectedModel st; promptContent := promptContent st;
     agentId := agentId st; status := v; isRunning := isRunning st;
     logs := logs st; error := error st;
     elapsedSeconds := elapsedSeconds st; activeTab := activeTab st;
     toasts := toasts st; newFindingIds := newFindingIds st;
     connectionLost := connectionLost st; reportId := reportId st;
     pollRef := pollRef st; seenFindingIdsRef := seenFindingIdsRef st;
     prevPhaseRef := prevPhaseRef st; prevStatusRef := prevStatusRef st;
     consecutiveErrorsRef := consecutiveErrorsRef st;
     localStorage := localStorage st |}.

Definition setIsRunning (v : bool) (st : State) : State :=
  {| target := target st; authType := authType st;
     authValue := authValue st; selectedProvider := selectedProvider st;
     selectedModel := selectedModel st; promptContent := promptContent st;
     agentId := agentId st; status := status st; isRunning := v;
     logs := logs st; error := error st;
     elapsedSeconds := elapsedSeconds st; activeTab := activeTab st;
     toasts := toasts st; newFindingIds := newFindingIds st;
     connectionLost := connectionLost st; reportId := reportId st;
     pollRef := pollRef st; seenFindingIdsRef := seenFindingIdsRef st;
     prevPhaseRef := prevPhaseRef st; prevStatusRef := prevStatusRef st;
     consecutiveErrorsRef := consecutiveErrorsRef st;
     localStorage := localStorage st |}.

Definition setLogs (v : list AgentLog.t) (st : State) : State :=
  {| target := target st; authType := authType st;
     authValue := authValue st; selectedProvider := selectedProvider st;
     selectedModel := selectedModel st; promptContent := promptContent st;
     agentId := agentId st; status := status st; isRunning := isRunning st;
     logs := v; error := error st; elapsedSeconds := elapsedSeconds st;
     activeTab := activeTab st; toasts := toasts st;
     newFindingIds := newFindingIds st; connectionLost := connectionLost st;
     reportId := reportId st; pollRef := pollRef st;
     seenFindingIdsRef := seenFindingIdsRef st;
     prevPhaseRef := prevPhaseRef st; prevStatusRef := prevStatusRef st;
     consecutiveErrorsRef := consecutiveErrorsRef st;
     localStorage := localStorage st |}.

Definition setError (v : option string) (st : State) : State :=
  {| target := target st; authType := authType st;
     authValue := authValue st; selectedProvider := selectedProvider st;
     selectedModel := selectedModel st; promptContent := promptContent st;
     agentId := agentId st; status := status st; isRunning := isRunning st;
     logs := logs st; error := v; elapsedSeconds := elapsedSeconds st;
     activeTab := activeTab st; toasts := toasts st;
     newFindingIds := newFindingIds st; connectionLost := connectionLost st;
     reportId := reportId st; pollRef := pollRef st;
     seenFindingIdsRef := seenFindingIdsRef st;
     prevPhaseRef := prevPhaseRef st; prevStatusRef := prevStatusRef st;
     consecutiveErrorsRef := consecutiveErrorsRef st;
     localStorage := localStorage st |}.

Definition setElapsedSeconds (v : Z) (st : State) : State :=
  {| target := target st; authType := authType st;
     authValue := authValue st; selectedProvider := selectedProvider st;
     selectedModel := selectedModel st; promptContent := promptContent st;
     agentId := agentId st; status := status st; isRunning := isRunning st;
     logs := logs st; error := error st; elapsedSeconds := v;
     activeTab := activeTab st; toasts := toasts st;
     newFindingIds := newFindingIds st; connectionLost := connectionLost st;
     reportId := reportId st; pollRef := pollRef st;
     seenFindingIdsRef := seenFindingIdsRef st;
     prevPhaseRef := prevPhaseRef st; prevStatusRef := prevStatusRef st;
     consecutiveErrorsRef := consecutiveErrorsRef st;
     localStorage := localStorage st |}.

Definition setActiveTab (v : Tab) (st : State) : State :=
  {| target := target st; authType := authType st;
     authValue := authValue st; selectedProvider := selectedProvider st;
     selectedModel := selectedModel st; promptContent := promptContent st;
     agentId := agentId st; status := status st; isRunning := isRunning st;
     logs := logs st; error := error st;
     elapsedSeconds := elapsedSeconds st; activeTab := v;
     toasts := toasts st; newFindingIds := newFindingIds st;
     connectionLost := connectionLost st; reportId := reportId st;
     pollRef := pollRef st; seenFindingIdsRef := seenFindingIdsRef st;
     prevPhaseRef := prevPhaseRef st; prevStatusRef := prevStatusRef st;
     consecutiveErrorsRef := consecutiveErrorsRef st;
     localStorage := localStorage st |}.

Definition setToasts (v : list Toast.t) (st : State) : State :=
  {| target := target st; authType := authType st;
     authValue := authValue st; selectedProvider := selectedProvider st;
     selectedModel := selectedModel st; promptContent := promptContent st;
     agentId := agentId st; status := status st; isRunning := isRunning st;
     logs := logs st; error := error st;
     elapsedSeconds := elapsedSeconds st; activeTab := activeTab st;
     toasts := v; newFindingIds := newFindingIds st;
     connectionLost := connectionLost st; reportId := reportId st;
     pollRef := pollRef st; seenFindingIdsRef := seenFindingIdsRef st;
     prevPhaseRef := prevPhaseRef st; prevStatusRef := prevStatusRef st;
     consecutiveErrorsRef := consecutiveErrorsRef st;
     localStorage := localStorage st |}.

Definition setNewFindingIds (v : list string) (st : State) : State :=
  {| target := target st; authType := authType st;
     authValue := authValue st; selectedProvider := selectedProvider st;
     selectedModel := selectedModel st; promptContent := promptContent st;
     agentId := agentId st; status := status st; isRunning := isRunning st;
     logs := logs st; error := error st;
     elapsedSeconds := elapsedSeconds st; activeTab := activeTab st;
     toasts := toasts st; newFindingIds := v;
     connectionLost := connectionLost st; reportId := reportId st;
     pollRef := pollRef st; seenFindingIdsRef := seenFindingIdsRef st;
     prevPhaseRef := prevPhaseRef st; prevStatusRef := prevStatusRef st;
     consecutiveErrorsRef := consecutiveErrorsRef st;
     localStorage := localStorage st |}.

Definition setConnectionLost (v : bool) (st : State) : State :=
  {| target := target st; authType := authType st;
     authValue := authValue st; selectedProvider := selectedProvider st;
     selectedModel := selectedModel st; promptContent := promptContent st;
     agentId := agentId st; status := status st; isRunning := isRunning st;
     logs := logs st; error := error st;
     elapsedSeconds := elapsedSeconds st; activeTab := activeTab st;
     toasts := toasts st; newFindingIds := newFindingIds st;
     connectionLost := v; reportId := reportId st; pollRef := pollRef st;
     seenFindingIdsRef := seenFindingIdsRef st;
     prevPhaseRef := prevPhaseRef st; prevStatusRef := prevStatusRef st;
     consecutiveErrorsRef := consecutiveErrorsRef st;
     localStorage := localStorage st |}.

Definition setReportId (v : option string) (st : State) : State :=
  {| target := target st; authType := authType st;
     authValue := authValue st; selectedProvider := selectedProvider st;
     selectedModel := selectedModel st; promptContent := promptContent st;
     agentId := agentId st; status := status st; isRunning := isRunning st;
     logs := logs st; error := error st;
     elapsedSeconds := elapsedSeconds st; activeTab := activeTab st;
     toasts := toasts st; newFindingIds := newFindingIds st;
     connectionLost := connectionLost st; reportId := v;
     pollRef := pollRef st; seenFindingIdsRef := seenFindingIdsRef st;
     prevPhaseRef := prevPhaseRef st; prevStatusRef := prevStatusRef st;
     consecutiveErrorsRef := consecutiveErrorsRef st;
     localStorage := localStorage st |}.

Definition set_pollRef (v : option Z) (st : State) : State :=
  {| target := target st; authType := authType st;
     authValue := authValue st; selectedProvider := selectedProvider st;
     selectedModel := selectedModel st; promptContent := promptContent st;
     agentId := agentId st; status := status st; isRunning := isRunning st;
     logs := logs st; error := error st;
     elapsedSeconds := elapsedSeconds st; activeTab := activeTab st;
     toasts := toasts st; newFindingIds := newFindingIds st;
     connectionLost := connectionLost st; reportId := reportId st;
     pollRef := v; seenFindingIdsRef := seenFindingIdsRef st;
     prevPhaseRef := prevPhaseRef st; prevStatusRef := prevStatusRef st;
     consecutiveErrorsRef := consecutiveErrorsRef st;
     localStorage := localStorage st |}.

Definition set_seenFindingIdsRef (v : list string) (st : State) : State :=
  {| target := target st; authType := authType st;
     authValue := authValue st; selectedProvider := selectedProvider st;
     selectedModel := selectedModel st; promptContent := promptContent st;
     agentId := agentId st; status := status st; isRunning := isRunning st;
     logs := logs st; error := error st;
     elapsedSeconds := elapsedSeconds st; activeTab := activeTab st;
     toasts := toasts st; newFindingIds := newFindingIds st;
     connectionLost := connectionLost st; reportId := reportId st;
     pollRef := pollRef st; seenFindingIdsRef := v;
     prevPhaseRef := prevPhaseRef st; prevStatusRef := prevStatusRef st;
     consecutiveErrorsRef := consecutiveErrorsRef st;
     localStorage := localStorage st |}.

Definition set_prevPhaseRef (v : option string) (st : State) : State :=
  {| target := target st; authType := authType st;
     authValue := authValue st; selectedProvider := selectedProvider st;
     selectedModel := selectedModel st; promptContent := promptContent st;
     agentId := agentId st; status := status st; isRunning := isRunning st;
     logs := logs st; error := error st;
     elapsedSeconds := elapsedSeconds st; activeTab := activeTab st;
     toasts := toasts st; newFindingIds := newFindingIds st;
     connectionLost := connectionLost st; reportId := reportId st;
     pollRef := pollRef st; seenFindingIdsRef := seenFindingIdsRef st;
     prevPhaseRef := v; prevStatusRef := prevStatusRef st;
     consecutiveErrorsRef := consecutiveErrorsRef st;
     localStorage := localStorage st |}.

Definition set_prevStatusRef (v : option string) (st : State) : State :=
  {| target := target st; authType := authType st;
     authValue := authValue st; selectedProvider := selectedProvider st;
     selectedModel := selectedModel st; promptContent := promptContent st;
     agentId := agentId st; status := status st; isRunning := isRunning st;
     logs := logs st; error := error st;
     elapsedSeconds := elapsedSeconds st; activeTab := activeTab st;
     toasts := toasts st; newFindingIds := newFindingIds st;
     connectionLost := connectionLost st; reportId := reportId st;
     pollRef := pollRef st; seenFindingIdsRef := seenFindingIdsRef st;
     prevPhaseRef := prevPhaseRef st; prevStatusRef := v;
     consecutiveErrorsRef := consecutiveErrorsRef st;
     localStorage := localStorage st |}.

Definition set_consecutiveErrorsRef (v : Z) (st : State) : State :=
  {| target := target st; authType := authType st;
     authValue := authValue st; selectedProvider := selectedProvider st;
     selectedModel := selectedModel st; promptContent := promptContent st;
     agentId := agentId st; status := status st; isRunning := isRunning st;
     logs := logs st; error := error st;
     elapsedSeconds := elapsedSeconds st; activeTab := activeTab st;
     toasts := toasts st; newFindingIds := newFindingIds st;
     connectionLost := connectionLost st; reportId := reportId st;
     pollRef := pollRef st; seenFindingIdsRef := seenFindingIdsRef st;
     prevPhaseRef := prevPhaseRef st; prevStatusRef := prevStatusRef st;
     consecutiveErrorsRef := v; localStorage := localStorage st |}.

Definition set_localStorage (v : option Session.t) (st : State) : State :=
  {| target := target st; authType := authType st;
     authValue := authValue st; selectedProvider := selectedProvider st;
     selectedModel := selectedModel st; promptContent := promptContent st;
     agentId := agentId st; status := status st; isRunning := isRunning st;
     logs := logs st; error := error st;
     elapsedSeconds := elapsedSeconds st; activeTab := activeTab st;
     toasts := toasts st; newFindingIds := newFindingIds st;
     connectionLost := connectionLost st; reportId := reportId st;
     pollRef := pollRef st; seenFindingIdsRef := seenFindingIdsRef st;
     prevPhaseRef := prevPhaseRef st; prevStatusRef := prevStatusRef st;
     consecutiveErrorsRef := consecutiveErrorsRef st; localStorage := v |}.

(** The state of a freshly mounted component, before any effect ran. *)
Definition initialState (stored : option Session.t) : State :=
  {| target := ""; authType := ""; authValue := "";
     selectedProvider := ""; selectedModel := "";
     promptContent := None;
     agentId := None; status := None; isRunning := false;
     logs := []; error := None; elapsedSeconds := 0;
     activeTab := findingsTab; toasts := []; newFindingIds := [];
     connectionLost := false; reportId := None;
     pollRef := None; seenFindingIdsRef := [];
     prevPhaseRef := None; prevStatusRef := None;
     consecutiveErrorsRef := 0; localStorage := stored |}.

(* ------------------------------------------------------------------ *)
(** ** Requests to the agent API and their outcomes *)

Record PentestOptions := mkOptions {
  mode : string;
  prompt : string;
  enable_kali_sandbox : bool;
  auth_type : option string;
  auth_value : option string;
  preferred_provider : option string;
  preferred_model : option string
}.

Inductive Request :=
| GetStatus (agentId : string)
| GetLogs (agentId : string) (limit : Z)
| AutoPentest (target : string) (opts : PentestOptions)
| Stop (agentId : string).

(** What a rejected request carries: [err.response.status],
    [err.response.data.detail] and [err.message], each possibly absent. *)
Record ApiError := mkError {
  response_status : option Z;
  response_detail : option string;
  err_message : option string
}.

Inductive Outcome (A : Type) :=
| Resolved (a : A)
| Rejected (err : ApiError).
Arguments Resolved {A} a.
Arguments Rejected {A} err.

(** [x || undefined] on a string of the form. *)
Definition orUndefined (x : string) : option string :=
  if JS.truthy x then Some x else None.

(* ------------------------------------------------------------------ *)
(** ** The polling effect *)

(** What the closure [poll] captured from the render that created it. *)
Record Closure := mkClosure {
  c_agentId : string;
  c_connectionLost : bool
}.

(** [poll], the [try] block after [await agentApi.getStatus(agentId)]
    resolved with [s], up to the [getLogs] request that follows it.  (The
    3000 ms timer that empties [newFindingIds] again has no part in what
    follows and is left out.) *)
Definition poll_resolved (c : Closure) (envs : nat -> Env)
    (s : AgentStatus.t) (st : State) : State * list Request :=
  let st := set_consecutiveErrorsRef 0 st in
  (* if (connectionLost) setConnectionLost(false) *)
  let st :=
    setConnectionLost
      (if c_connectionLost c then false else connectionLost st) st in
  let st := setStatus (Some s) st in
  let running :=
    ((AgentStatus.status s =? "running") || (AgentStatus.status s =? "paused"))%string in
  let st := setIsRunning running st in
  (* Persist session: only when a record is stored *)
  let st :=
    set_localStorage
      match localStorage st with
      | Some sess =>
        Some (Session.mk (Session.agentId sess) (Session.target sess)
                (Session.startedAt sess) (AgentStatus.status s))
      | None => None
      end st in
  (* Phase change detection *)
  let t1 := phaseChange (prevPhaseRef st) s in
  let st := set_prevPhaseRef (nextPhase s) st in
  (* Status transition detection *)
  let t2 := statusTransition (prevStatusRef st) s in
  let st := set_prevStatusRef (Some (AgentStatus.status s)) st in
  (* New finding detection *)
  let ids := newIds (seenFindingIdsRef st) s in
  let t3 := findingToasts s ids in
  (* if (newIds.length > 0) setNewFindingIds(new Set(newIds)) *)
  let st :=
    setNewFindingIds
      (if 0 <? Z.of_nat (List.length ids)
       then JS.new_Set ids else newFindingIds st) st in
  let st := set_seenFindingIdsRef (currentIds s) st in
  let st := setToasts (addToasts envs 0 (t1 ++ t2 ++ t3)%list (toasts st)) st in
  (st, [GetLogs (c_agentId c) 300]).

(** [poll], the [catch] block after [getStatus] rejected, up to the
    [getLogs] request. *)
Definition poll_rejected (c : Closure) (st : State) : State * list Request :=
  let st := set_consecutiveErrorsRef (consecutiveErrorsRef st + 1) st in
  (* if (consecutiveErrorsRef.current >= 3) setConnectionLost(true) *)
  let st :=
    setConnectionLost
      (if 3 <=? consecutiveErrorsRef st then true else connectionLost st) st in
  (st, [GetLogs (c_agentId c) 300]).

(** [poll], after [await agentApi.getLogs(agentId, 300)] settled;
    [logData.logs] may be absent. *)
Definition poll_logs (o : Outcome (option (list AgentLog.t))) (st : State)
    : State :=
  match o with
  | Resolved (Some l) => setLogs l st
  | Resolved None => setLogs [] st
  | Rejected _ => st
  end.

(** The body of the polling effect: it calls [poll()] once and registers
    the interval, whose period is chosen from the failure count as it is at
    that moment. *)
Definition pollingEffect (st : State) : State * list Request :=
  match agentId st with
  | Some a =>
    if JS.truthy a then
      let interval :=
        if 3 <=? consecutiveErrorsRef st
        then POLL_INTERVAL_ERROR else POLL_INTERVAL in
      (set_pollRef (Some interval) st, [GetStatus a])
    else (st, [])
  | None => (st, [])
  end.

(** The cleanup that the effect returned: [clearInterval]. *)
Definition pollingCleanup (st : State) : State := set_pollRef None st.

(** The dependencies [agentId, connectionLost] ([addToast] never changes). *)
Definition sameDeps (old new : State) : bool :=
  match agentId old, agentId new with
  | Some a, Some b => (a =? b)%string
  | None, None => true
  | _, _ => false
  end && Bool.eqb (connectionLost old) (connectionLost new).

(** A render that follows a state change from [old] to [new]: when a
    dependency changed, the cleanup of the previous run (if that run got
    past [if (!agentId) return]) and then the effect. *)
Definition commit (old new : State) : State * list Request :=
  if sameDeps old new then (new, [])
  else
    pollingEffect
      (if JS.otruthy (agentId old) then pollingCleanup new else new).

(** The interval fires: [poll()] sends its status request. *)
Definition tick (st : State) : list Request :=
  match pollRef st, agentId st with
  | Some _, Some a => [GetStatus a]
  | _, _ => []
  end.

(* ------------------------------------------------------------------ *)
(** ** Actions *)

(** [handleStart] up to [await agentApi.autoPentest(...)]. *)
Definition handleStart (st : State) : State * list Request :=
  let primaryTarget := JS.trim (target st) in
  if negb (JS.truthy primaryTarget) || negb (JS.otruthy (promptContent st))
  then (st, [])
  else
    let st := setError None st in
    let st := setLogs [] st in
    let st := setReportId None st in
    let st := set_seenFindingIdsRef [] st in
    let st := set_prevPhaseRef None st in
    let st := set_prevStatusRef None st in
    let st := set_consecutiveErrorsRef 0 st in
    (st,
     [AutoPentest primaryTarget
        {| mode := "full_llm_pentest";
           prompt := match promptContent st with Some p => p | None => "" end;
           enable_kali_sandbox := false;
           auth_type := orUndefined (authType st);
           auth_value := orUndefined (authValue st);
           preferred_provider := orUndefined (selectedProvider st);
           preferred_model := orUndefined (selectedModel st) |}]).

(** [handleStart] after the request settled; [primaryTarget] is the value
    the handler computed before the request, [o] carries [resp.agent_id],
    and [startedAt] is the time that [new Date()] reads. *)
Definition handleStart_settled (e : Env) (startedAt : Z)
    (primaryTarget : string) (o : Outcome string) (st : State) : State :=
  match o with
  | Resolved agent_id =>
    let st := setAgentId (Some agent_id) st in
    let st := setIsRunning true st in
    let st := setToasts (addToast e "Full LLM Pentest started" "info" (toasts st)) st in
    set_localStorage
      (Some (Session.mk agent_id primaryTarget startedAt "running")) st
  | Rejected err =>
    match response_status err with
    | Some 429 => setError (response_detail err) st
    | _ =>
      setError
        (JS.or_else (response_detail err)
           (JS.or_else (err_message err)
              (Some "Failed to start FULL AI pentest"))) st
    end
  end.

(** [handleStop] up to [await agentApi.stop(agentId)]. *)
Definition handleStop (st : State) : list Request :=
  match agentId st with
  | Some a => if JS.truthy a then [Stop a] else []
  | None => []
  end.

(** [handleStop] after the request settled: [setIsRunning(false)] stands
    inside the [try], after the [await]; the [catch] is empty. *)
Definition handleStop_settled (o : Outcome unit) (st : State) : State :=
  match o with
  | Resolved _ => setIsRunning false st
  | Rejected _ => st
  end.

Definition handleClear (st : State) : State :=
  let st := setAgentId None st in
  let st := setStatus None st in
  let st := setIsRunning false st in
  let st := setLogs [] st in
  let st := setError None st in
  let st := setReportId None st in
  let st := setElapsedSeconds 0 st in
  let st := setActiveTab findingsTab st in
  let st := setNewFindingIds [] st in
  let st := setConnectionLost false st in
  let st := set_seenFindingIdsRef [] st in
  let st := set_prevPhaseRef None st in
  let st := set_prevStatusRef None st in
  set_localStorage None st.

(** The mount effect, as far as the session goes: the stored record is
    restored into the state. *)
Definition restoreSession (st : State) : State :=
  match localStorage st with
  | Some sess =>
    let st := setAgentId (Some (Session.agentId sess)) st in
    let st := setTarget (Session.target sess) st in
    setIsRunning (Session.status sess =? "running")%string st
  | None => st
  end.

(* ------------------------------------------------------------------ *)
(** ** The page as a transition system

    One event is one callback of the page run to completion, followed by
    the render it causes.  [step] is the page when nothing overlaps: each
    request settles before the next [poll] starts and before the session
    changes, so the closure of a settling [poll] is the one of the current
    render and holds the current [agentId] and [connectionLost]; with no
    agent there is no [poll] to settle.  The handlers are taken as they
    are called, whether or not the page shows their button.  The runs in
    which requests overlap or outlive their session are those of [Live]
    below. *)

Inductive Event :=
| Tick
| StatusSettled (envs : nat -> Env) (o : Outcome AgentStatus.t)
| LogsSettled (o : Outcome (option (list AgentLog.t)))
| StartClicked
| StartSettled (e : Env) (startedAt : Z) (o : Outcome string)
| StopClicked
| StopSettled (o : Outcome unit)
| ClearClicked.

Definition andThenCommit (old : State) (r : State * list Request)
    : State * list Request :=
  let (st', out) := commit old (fst r) in
  (st', (snd r ++ out)%list).

Definition step (st : State) (ev : Event) : State * list Request :=
  match ev with
  | Tick => (st, tick st)
  | StatusSettled envs o =>
    match agentId st with
    | Some a =>
      if JS.truthy a then
        let c := mkClosure a (connectionLost st) in
        andThenCommit st
          match o with
          | Resolved s => poll_resolved c envs s st
          | Rejected _ => poll_rejected c st
          end
      else (st, [])
    | None => (st, [])
    end
  | LogsSettled o => (poll_logs o st, [])
  | StartClicked => andThenCommit st (handleStart st)
  | StartSettled e startedAt o =>
    andThenCommit st
      (handleStart_settled e startedAt (JS.trim (target st)) o st, [])
  | StopClicked => (st, handleStop st)
  | StopSettled o => andThenCommit st (handleStop_settled o st, [])
  | ClearClicked => andThenCommit st (handleClear st, [])
  end.

(** A sequence of events; the requests are collected in order. *)
Fixpoint run (st : State) (evs : list Event) : State * list Request :=
  match evs with
  | [] => (st, [])
  | ev :: r =>
    let (st1, out1) := step st ev in
    let (st2, out2) := run st1 r in
    (st2, (out1 ++ out2)%list)
  end.

Definition after (st : State) (evs : list Event) : State := fst (run st evs).

(* ------------------------------------------------------------------ *)
(** ** Vocabulary of the properties *)

(** The toasts one successful snapshot raises, by rule. *)
Definition phaseToasts (st : State) (s : AgentStatus.t) : list ToastCall :=
  phaseChange (prevPhaseRef st) s.

Definition statusToasts (st : State) (s : AgentStatus.t) : list ToastCall :=
  statusTransition (prevStatusRef st) s.

(** The identifiers one successful snapshot reports as new. *)
Definition reportedNew (st : State) (s : AgentStatus.t) : list string :=
  newIds (seenFindingIdsRef st) s.

Definition newFindingToasts (st : State) (s : AgentStatus.t)
    : list ToastCall :=
  findingToasts s (reportedNew st s).

Definition pollToasts (st : State) (s : AgentStatus.t) : list ToastCall :=
  (phaseToasts st s ++ statusToasts st s ++ newFindingToasts st s)%list.

(** One successful status fetch: the closure of the [poll] that made it,
    the clock and random values it reads, and the snapshot. *)
Record Fetch := mkFetch {
  f_closure : Closure;
  f_envs : nat -> Env;
  f_status : AgentStatus.t
}.

Definition pollOk (f : Fetch) (st : State) : State :=
  fst (poll_resolved (f_closure f) (f_envs f) (f_status f) st).

(** The sizes of the seen set before and after each fetch of a sequence. *)
Fixpoint seenSizes (fs : list Fetch) (st : State) : list nat :=
  List.length (seenFindingIdsRef st) ::
  match fs with
  | [] => []
  | f :: r => seenSizes r (pollOk f st)
  end.

(** All the identifiers reported as new along a sequence of fetches, one
    entry per report. *)
Fixpoint reportedAlong (fs : list Fetch) (st : State) : list string :=
  match fs with
  | [] => []
  | f :: r => (reportedNew st (f_status f) ++ reportedAlong r (pollOk f st))%list
  end.

Fixpoint nondecreasing (l : list nat) : Prop :=
  match l with
  | x :: (y :: _) as r => (x <= y)%nat /\ nondecreasing r
  | _ => True
  end.

(** No identifier leaves the findings from one snapshot to the next, nor
    from the seen set to the first snapshot. *)
Fixpoint findingsPersist (seen : list string) (fs : list Fetch) : Prop :=
  match fs with
  | [] => True
  | f :: r =>
    incl seen (currentIds (f_status f))
    /\ findingsPersist (currentIds (f_status f)) r
  end.

(** The seen set as an accumulator: along the fetches it never gets
    smaller, and no identifier is reported as new twice. *)
Definition seenAccumulates (fs : list Fetch) (st : State) : Prop :=
  nondecreasing (seenSizes fs st) /\ NoDup (reportedAlong fs st).

(** The stop command clearing the run flag whatever the outcome [o] of its
    request. *)
Definition stopClearsFlag (st : State) (o : Outcome unit) : Prop :=
  handleStop st <> [] /\ isRunning (handleStop_settled o st) = false.

(** No live interval, and nothing sent when one would fire. *)
Definition pollingStopped (st : State) : Prop :=
  pollRef st = None /\ tick st = [].

(** The second of two successful fetches raising exactly one phase toast
    and exactly one new-finding toast. *)
Definition secondFetchNotifies (st : State) (f1 f2 : Fetch) : Prop :=
  let st1 := pollOk f1 st in
  List.length (phaseToasts st1 (f_status f2)) = 1%nat
  /\ List.length (newFindingToasts st1 (f_status f2)) = 1%nat.

(** The statuses that end a run. *)
Definition terminal (status : string) : bool :=
  ((status =? "completed") || (status =? "error") || (status =? "stopped"))%string.

(** A polling session whose connection flag and interval agree with the
    failure count, as they do from the start of a session on. *)
Definition coherent (st : State) : Prop :=
  JS.otruthy (agentId st) = true
  /\ 0 <= consecutiveErrorsRef st
  /\ connectionLost st = (3 <=? consecutiveErrorsRef st)
  /\ pollRef st =
     Some (if connectionLost st then POLL_INTERVAL_ERROR else POLL_INTERVAL).


Definition statusFailed (err : ApiError) : Event :=
  StatusSettled (fun _ => mkEnv 0 "" 0) (Rejected err).

(* ------------------------------------------------------------------ *)
(** ** Sample data *)

Module Sample.

Definition env : Env := mkEnv 1700000000000 "k3x9" 1700000000000.
Definition envs : nat -> Env := fun _ => env.
Definition err : ApiError := mkError None None (Some "Network Error").

Definition finding (id : string) : AgentFinding.t :=
  AgentFinding.mk id "high" ("Issue " ++ id).

Definition snapshot (status phase : string) (ids : list string)
    : AgentStatus.t :=
  AgentStatus.mk status phase 10 (Some 1700000000000) None
    (Some (map finding ids)) (Z.of_nat (List.length ids)) None.

(** A mounted page with the prompt loaded and a target typed in. *)
Definition ready : State :=
  setPromptContent (Some "You are a pentester.")
    (setTarget "https://example.test" (initialState None)).

(** The same page once the run has started. *)
Definition started : State :=
  after ready
    [StartClicked; StartSettled env 1700000000001 (Resolved "agent-1")].

Definition fetch (status phase : string) (ids : list string) : Fetch :=
  mkFetch (mkClosure "agent-1" false) envs (snapshot status phase ids).

End Sample.

(* ------------------------------------------------------------------ *)
(** ** Utility functions of the page *)

(** More of JavaScript's strings.  A [string] is a sequence of code units
    below U+0100. *)
Module Str.

(** [s.startsWith(p)]. *)
Fixpoint startsWith (s p : string) {struct p} : bool :=
  match p with
  | EmptyString => true
  | String a p' =>
    match s with
    | EmptyString => false
    | String b s' => (a =? b)%char && startsWith s' p'
    end
  end.

(** [s.includes(sub)]. *)
Fixpoint includes (s sub : string) : bool :=
  startsWith s sub
  || match s with
     | EmptyString => false
     | String _ r => includes r sub
     end.

(** [String.prototype.toLowerCase] on code units below U+0100: A-Z, and
    the capital letters U+00C0 to U+00DE but the sign U+00D7.  On these
    the conversion is character by character (the rule that looks at the
    position in the word applies to the Greek capital sigma only). *)
Definition lower (c : ascii) : ascii :=
  let n := nat_of_ascii c in
  if ((65 <=? n) && (n <=? 90)
      || (192 <=? n) && (n <=? 222) && negb (n =? 215))%nat
  then ascii_of_nat (n + 32) else c.

Fixpoint toLowerCase (s : string) : string :=
  match s with
  | EmptyString => EmptyString
  | String c r => String (lower c) (toLowerCase r)
  end.

(** [s.padStart(target, c)] with a one-character filler. *)
Definition padStart (target : nat) (c : ascii) (s : string) : string :=
  string_of_list_ascii (repeat c (target - String.length s)) ++ s.

End Str.

(** The table [PHASES]: key, label and the range of progress. *)
Record Phase := mkPhase {
  key : string;
  label : string;
  range : Z * Z
}.

Definition PHASES : list Phase :=
  [mkPhase "recon" "AI Recon" (0, 25);
   mkPhase "testing" "AI Testing" (25, 70);
   mkPhase "postexploit" "Post-Exploitation" (70, 85);
   mkPhase "report" "Report" (85, 100)].

Definition phaseFromProgress (progress : Z) : Z :=
  if progress <? 25 then 0
  else if progress <? 70 then 1
  else if progress <? 85 then 2
  else 3.

(** [formatElapsed]; [%] is the remainder that takes the sign of the
    dividend. *)
Definition formatElapsed (totalSeconds : Z) : string :=
  let h := totalSeconds / 3600 in
  let m := Z.rem totalSeconds 3600 / 60 in
  let s := Z.rem totalSeconds 60 in
  Str.padStart 2 "0" (JS.show h) ++ ":"
  ++ Str.padStart 2 "0" (JS.show m) ++ ":"
  ++ Str.padStart 2 "0" (JS.show s).

Definition logMessageColor (message : string) : string :=
  if Str.startsWith message "[LLM PENTEST]" then "text-red-400"
  else if Str.startsWith message "[STREAM 1]" then "text-blue-400"
  else if Str.startsWith message "[STREAM 2]" then "text-purple-400"
  else if Str.startsWith message "[STREAM 3]" then "text-orange-400"
  else if Str.startsWith message "[TOOL]" then "text-orange-300"
  else if Str.startsWith message "[DEEP]" then "text-cyan-400"
  else if Str.startsWith message "[FINAL]" then "text-green-400"
  else if Str.startsWith message "[CONTAINER]" then "text-cyan-300"
  else if Str.startsWith message "[PHASE]" then "text-yellow-400"
  else if Str.startsWith message "[PHASE FAIL]" then "text-red-400"
  else if Str.startsWith message "[BANNER]" then "text-teal-400"
  else if Str.startsWith message "[WAF]" then "text-amber-400"
  else if Str.startsWith message "[PLAYBOOK]" then "text-indigo-400"
  else if Str.startsWith message "[SITE ANALYZER]" then "text-emerald-400"
  else "".

(** The tags that [logMessageColor] tests, with the class of each. *)
Definition LOG_TAGS : list (string * string) :=
  [("[LLM PENTEST]", "text-red-400"); ("[STREAM 1]", "text-blue-400");
   ("[STREAM 2]", "text-purple-400"); ("[STREAM 3]", "text-orange-400");
   ("[TOOL]", "text-orange-300"); ("[DEEP]", "text-cyan-400");
   ("[FINAL]", "text-green-400"); ("[CONTAINER]", "text-cyan-300");
   ("[PHASE]", "text-yellow-400"); ("[PHASE FAIL]", "text-red-400");
   ("[BANNER]", "text-teal-400"); ("[WAF]", "text-amber-400");
   ("[PLAYBOOK]", "text-indigo-400"); ("[SITE ANALYZER]", "text-emerald-400")].

Definition matchLogFilter (log : AgentLog.t) (filter : string) : bool :=
  if (filter =? "all")%string then true
  else if (filter =? "llm")%string
  then Str.startsWith (AgentLog.message log) "[LLM PENTEST]"
  else if (filter =? "ai")%string
  then (AgentLog.source log =? "llm")%string
       || Str.includes (AgentLog.message log) "[AI]"
       || Str.includes (AgentLog.message log) "[LLM]"
  else if (filter =? "error")%string
  then (AgentLog.level log =? "error")%string
       || (AgentLog.level log =? "warning")%string
  else true.

(** [filteredLogs] of [LogViewer]. *)
Definition filteredLogs (logs : list AgentLog.t) (logFilter logSearch : string)
    : list AgentLog.t :=
  filter
    (fun log =>
       if negb (matchLogFilter log logFilter) then false
       else if JS.truthy logSearch
               && negb (Str.includes (Str.toLowerCase (AgentLog.message log))
                          (Str.toLowerCase logSearch))
       then false
       else true)
    logs.

(** The class of a log line's message in [LogViewer]:
    [logMessageColor(log.message) || (log.source === 'llm' ? ... : ...)]. *)
Definition logLineClass (log : AgentLog.t) : string :=
  let c := logMessageColor (AgentLog.message log) in
  if JS.truthy c then c
  else if (AgentLog.source log =? "llm")%string
  then "text-purple-400" else "text-dark-300".

(* ------------------------------------------------------------------ *)
(** ** Confidence of a finding *)

(** The property names that an object literal inherits from
    [Object.prototype]: [o[k]] finds a member of the prototype under them
    unless the object has a key [k] of its own. *)
Definition inheritedKeys : list string :=
  ["constructor"; "__defineGetter__"; "__defineSetter__"; "hasOwnProperty";
   "__lookupGetter__"; "__lookupSetter__"; "isPrototypeOf";
   "propertyIsEnumerable"; "toString"; "valueOf"; "__proto__";
   "toLocaleString"].

Module Confidence.

(** A JavaScript number: the finite ones are rationals. *)
Inductive Num :=
| Finite (q : Q)
| NaN
| PosInfinity
| NegInfinity.

(** What [score] holds when it is not [null].  Its type says [number], and
    nothing checks that at run time: [map[key]] reads the word table with
    a key that comes from the finding, and under an inherited key it finds
    a member of [Object.prototype] (a function, or the prototype itself
    for [__proto__]), which [?? null] lets through. *)
Inductive Score :=
| ScoreNum (x : Num)
| ScoreInherited (key : string).

(** The result object of [getConfidenceDisplay]. *)
Record Display := mkDisplay {
  score : Score;
  color : string;
  label : string
}.

Definition isNaN (x : Num) : bool :=
  match x with
  | NaN => true
  | _ => false
  end.

(** [score >= n] for a finite [n]: false at [NaN], and at a member of
    [Object.prototype], which converts to [NaN]. *)
Definition geq (s : Score) (n : Q) : bool :=
  match s with
  | ScoreNum (Finite q) => Qle_bool n q
  | ScoreNum PosInfinity => true
  | ScoreNum NaN | ScoreNum NegInfinity => false
  | ScoreInherited _ => false
  end.

(** [map[k] ?? null] for the object literal
    [{ high: 90, medium: 60, low: 30 }]. *)
Definition confidenceMap (k : string) : option Score :=
  if (k =? "high")%string then Some (ScoreNum (Finite (90 # 1)))
  else if (k =? "medium")%string then Some (ScoreNum (Finite (60 # 1)))
  else if (k =? "low")%string then Some (ScoreNum (Finite (30 # 1)))
  else if existsb (String.eqb k) inheritedKeys then Some (ScoreInherited k)
  else None.

Section WithNumber.

(** [Number(text)]. *)
Variable Number : string -> Num.

(** The first half of [getConfidenceDisplay]: the score, if any.
    [confidence_score] is [Some] when [typeof] says ['number']. *)
Definition confidenceScore (confidence_score : option Num)
    (confidence : option string) : option Score :=
  match confidence_score with
  | Some n => Some (ScoreNum n)
  | None =>
    match confidence with
    | Some c =>
      if JS.truthy c then
        let parsed := Number c in
        if negb (isNaN parsed) then Some (ScoreNum parsed)
        else confidenceMap (Str.toLowerCase c)
      else None
    | None => None
    end
  end.

Definition getConfidenceDisplay (confidence_score : option Num)
    (confidence : option string) : option Display :=
  match confidenceScore confidence_score confidence with
  | None => None
  | Some sc =>
    let color :=
      if geq sc (90 # 1) then "green"
      else if geq sc (60 # 1) then "yellow" else "red" in
    let label :=
      if geq sc (90 # 1) then "Confirmed"
      else if geq sc (60 # 1) then "Likely" else "Low" in
    Some (mkDisplay sc color label)
  end.

End WithNumber.

(** A score being at least [n], as a number. *)
Definition atLeast (n : Q) (s : Score) : Prop :=
  match s with
  | ScoreNum (Finite q) => (n <= q)%Q
  | ScoreNum PosInfinity => True
  | _ => False
  end.

End Confidence.

(* ------------------------------------------------------------------ *)
(** ** Derived state of a render *)

(** A JavaScript object used as a map from strings to numbers: its own
    keys with their values, in the order the keys were first written.
    [get] and [set] are [o[k]] and [o[k] = v] at the keys that are not in
    [inheritedKeys]; under those an object has the members of
    [Object.prototype], which are no numbers, and the statements on
    [sevCounts] leave them aside. *)
Module Obj.

Definition t : Type := list (string * Z).

(** [o[k]] for [k] outside [inheritedKeys]. *)
Fixpoint get (o : t) (k : string) : option Z :=
  match o with
  | [] => None
  | (k', v) :: r => if (k' =? k)%string then Some v else get r k
  end.

(** [o[k] = v] for [k] outside [inheritedKeys]. *)
Fixpoint set (k : string) (v : Z) (o : t) : t :=
  match o with
  | [] => [(k, v)]
  | (k', v') :: r =>
    if (k' =? k)%string then (k', v) :: r else (k', v') :: set k v r
  end.

End Obj.

(** [x || 0] on a count. *)
Definition orZero (x : option Z) : Z :=
  match x with
  | Some v => v
  | None => 0
  end.

(** [findings.reduce((acc, f) => { acc[f.severity] = (acc[f.severity] || 0)
    + 1; return acc }, {})]. *)
Definition sevCounts (findings : list AgentFinding.t) : Obj.t :=
  fold_left
    (fun acc f =>
       Obj.set (AgentFinding.severity f)
         (orZero (Obj.get acc (AgentFinding.severity f)) + 1) acc)
    findings [].

Definition SEVERITIES : list string :=
  ["critical"; "high"; "medium"; "low"; "info"].

(** [data] of [SeverityMiniChart]: name and value of each slice. *)
Definition chartData (counts : Obj.t) : list (string * Z) :=
  map (fun s => (s, orZero (Obj.get counts s)))
    (filter (fun s => 0 <? orZero (Obj.get counts s)) SEVERITIES).

(** [allFindings] and [displayFindings]. *)
Definition allFindings (findings rejectedFindings : list AgentFinding.t)
    : list AgentFinding.t :=
  (findings ++ rejectedFindings)%list.

Definition displayFindings (findingsFilter : string)
    (findings rejectedFindings : list AgentFinding.t) : list AgentFinding.t :=
  if (findingsFilter =? "confirmed")%string then findings
  else if (findingsFilter =? "rejected")%string then rejectedFindings
  else allFindings findings rejectedFindings.

(** [currentPhaseIdx], and [isActive] and [isDone] of the phase
    indicators, which are drawn when there is a status. *)
Definition currentPhaseIdx (status : option AgentStatus.t) : Z :=
  match status with
  | Some s => phaseFromProgress (AgentStatus.progress s)
  | None => -1
  end.

Definition phaseIsActive (idx : Z) (s : AgentStatus.t) (isRunning : bool)
    : bool :=
  (idx =? currentPhaseIdx (Some s)) && isRunning.

Definition phaseIsDone (idx : Z) (s : AgentStatus.t) : bool :=
  (idx <? currentPhaseIdx (Some s))
  || (AgentStatus.status s =? "completed")%string
  || (AgentStatus.status s =? "stopped")%string.

(** An entry of [availableModels]. *)
Record Provider := mkProvider {
  provider_id : string;
  provider_name : string;
  default_model : string;
  tier : Z;
  available_models : list string
}.

(** [a.indexOf(v)]. *)
Fixpoint indexOfFrom (i : Z) (a : list string) (v : string) : Z :=
  match a with
  | [] => -1
  | x :: r => if (x =? v)%string then i else indexOfFrom (i + 1) r v
  end.

Definition indexOf (a : list string) (v : string) : Z := indexOfFrom 0 a v.

(** [a.filter((v, i) => f(v, i))], from index [i] on. *)
Fixpoint filterIdx (f : string -> Z -> bool) (i : Z) (l : list string)
    : list string :=
  match l with
  | [] => []
  | v :: r =>
    if f v i then v :: filterIdx f (i + 1) r else filterIdx f (i + 1) r
  end.

(** [a.filter((v, i, a) => a.indexOf(v) === i)]. *)
Definition uniqueByIndex (a : list string) : list string :=
  filterIdx (fun v i => indexOf a v =? i) 0 a.

(** The options of the model selector. *)
Definition modelOptions (availableModels : list Provider)
    (selectedProvider : string) : list string :=
  if JS.truthy selectedProvider then
    match find (fun m => (provider_id m =? selectedProvider)%string)
            availableModels with
    | Some m => available_models m
    | None => []
    end
  else uniqueByIndex (flat_map available_models availableModels).

(** [disabled] of the start button. *)
Definition startDisabled (st : State) (promptLoading : bool) : bool :=
  negb (JS.truthy (JS.trim (target st)))
  || negb (JS.otruthy (promptContent st))
  || promptLoading.

(* ------------------------------------------------------------------ *)
(** ** Report generation *)

Module Report.

(** The argument of [reportsApi.generateAiReport]. *)
Record Params := mkParams {
  scan_id : string;
  title : string;
  preferred_provider : option string;
  preferred_model : option string
}.

(** [handleGenerateAiReport] up to the request: nothing without a scan
    identifier, else [generatingReport] is set and the request goes out. *)
Definition handleGenerateAiReport (st : State) (generatingReport : bool)
    : bool * option Params :=
  match status st with
  | Some s =>
    match AgentStatus.scan_id s with
    | Some sid =>
      if JS.truthy sid then
        (true,
         Some (mkParams sid ("FULL AI Report - " ++ target st)
                 (orUndefined (selectedProvider st))
                 (orUndefined (selectedModel st))))
      else (generatingReport, None)
    | None => (generatingReport, None)
    end
  | None => (generatingReport, None)
  end.

(** After the request settled; [o] carries [report.id].  The [finally]
    clears [generatingReport] on both paths. *)
Definition handleGenerateAiReport_settled (e : Env) (o : Outcome string)
    (st : State) : State * bool :=
  match o with
  | Resolved id =>
    let st := setReportId (Some id) st in
    let st :=
      setToasts (addToast e "AI Report generated" "completed" (toasts st)) st in
    (st, false)
  | Rejected err =>
    (setError
       (JS.or_else (response_detail err)
          (Some "Failed to generate AI report")) st,
     false)
  end.

End Report.

(* ------------------------------------------------------------------ *)
(** ** More vocabulary *)

(** The character of a decimal digit, and a number below 100 written with
    two digits. *)
Definition digit (d : Z) : ascii := ascii_of_nat (48 + Z.to_nat d).

Definition twoDigits (n : Z) : string :=
  String (digit (n / 10)) (String (digit (n mod 10)) EmptyString).

(** The toast objects of a row of [addToast] calls. *)
Fixpoint toastsOf (envs : nat -> Env) (k : nat) (calls : list ToastCall)
    : list Toast.t :=
  match calls with
  | [] => []
  | (m, sev) :: r => newToast (envs k) m sev :: toastsOf envs (S k) r
  end.

(** The requests a polling session may send for the agent [a]. *)
Definition requestFor (a : string) (r : Request) : Prop :=
  r = GetStatus a \/ r = GetLogs a 300 \/ r = Stop a.

(** Number of findings of a severity, and of the severities of the chart. *)
Definition countSeverity (sev : string) (findings : list AgentFinding.t) : Z :=
  Z.of_nat
    (List.length
       (filter (fun f => (AgentFinding.severity f =? sev)%string) findings)).

Definition knownSeverity (f : AgentFinding.t) : bool :=
  existsb (fun s => (AgentFinding.severity f =? s)%string) SEVERITIES.

Definition total (l : list (string * Z)) : Z :=
  fold_right (fun p acc => snd p + acc) 0 l.

(* ------------------------------------------------------------------ *)
(** ** The page with its requests in flight

    [step] above settles every fetch under the closure of the current
    render and takes each button as clickable.  Here the requests that
    were sent and have not settled yet are part of the state, each with
    what its handler captured when it was called, and they settle in any
    order: a [poll] keeps the [agentId] and [connectionLost] of the render
    that created it, nothing cancels it, and no callback checks that the
    session is still the one it was started for.  A button can be clicked
    only where the page renders it. *)

Module Live.

Inductive InFlight :=
| StatusFetch (c : Closure)          (* a [poll] at [await getStatus] *)
| LogsFetch (c : Closure)            (* the same [poll] at [await getLogs] *)
| StartRequest (primaryTarget : string)  (* [handleStart] at its [await] *)
| StopRequest (a : string).          (* [handleStop] at its [await] *)

Record World := mkWorld {
  page : State;
  inflight : list InFlight
}.

(** What a settling request brings. *)
Inductive Reply :=
| StatusReply (envs : nat -> Env) (o : Outcome AgentStatus.t)
| LogsReply (o : Outcome (option (list AgentLog.t)))
| StartReply (e : Env) (startedAt : Z) (o : Outcome string)
| StopReply (o : Outcome unit).

Inductive Action :=
| TimerFires                         (* the interval calls [poll] *)
| Settles (i : nat) (r : Reply)      (* the [i]-th request in flight settles *)
| Types (s : string)                 (* the target field of the start form *)
| ClickStart
| ClickStop
| ClickClear.

Definition removeAt {A : Type} (i : nat) (l : list A) : list A :=
  (firstn i l ++ skipn (S i) l)%list.

(** The polls that a render started: one for each status request that the
    polling effect sent, with the closure of that render. *)
Definition pollsStarted (st : State) (out : list Request) : list InFlight :=
  flat_map
    (fun r =>
       match r with
       | GetStatus a => [StatusFetch (mkClosure a (connectionLost st))]
       | _ => []
       end)
    out.

(** The start form is rendered under [!agentId], the session view under
    [agentId]; in it Stop is rendered under [isRunning], New Test and
    Clear under [!isRunning].  The start button is disabled while
    [startDisabled] ([promptLoading] is set only while [promptContent] is
    still absent). *)
Definition formShown (st : State) : bool := negb (JS.otruthy (agentId st)).

Definition stopShown (st : State) : bool :=
  JS.otruthy (agentId st) && isRunning st.

Definition clearShown (st : State) : bool :=
  JS.otruthy (agentId st) && negb (isRunning st).

Definition act (w : World) (a : Action) : World * list Request :=
  let st := page w in
  match a with
  | TimerFires =>
    (* the interval is replaced at every change of [agentId] or
       [connectionLost], so its [poll] has the current values of both *)
    match pollRef st, agentId st with
    | Some _, Some ag =>
      (mkWorld st
         (inflight w ++ [StatusFetch (mkClosure ag (connectionLost st))]),
       [GetStatus ag])
    | _, _ => (w, [])
    end
  | Settles i r =>
    match nth_error (inflight w) i, r with
    | Some (StatusFetch c), StatusReply envs o =>
      let handled :=
        match o with
        | Resolved s => poll_resolved c envs s st
        | Rejected _ => poll_rejected c st
        end in
      let (st', out) := commit st (fst handled) in
      (mkWorld st'
         (removeAt i (inflight w) ++ [LogsFetch c] ++ pollsStarted st' out),
       (snd handled ++ out)%list)
    | Some (LogsFetch _), LogsReply o =>
      (mkWorld (poll_logs o st) (removeAt i (inflight w)), [])
    | Some (StartRequest primaryTarget), StartReply e startedAt o =>
      let (st', out) :=
        commit st (handleStart_settled e startedAt primaryTarget o st) in
      (mkWorld st' (removeAt i (inflight w) ++ pollsStarted st' out), out)
    | Some (StopRequest _), StopReply o =>
      let (st', out) := commit st (handleStop_settled o st) in
      (mkWorld st' (removeAt i (inflight w) ++ pollsStarted st' out), out)
    | _, _ => (w, [])
    end
  | Types s =>
    if formShown st then (mkWorld (setTarget s st) (inflight w), [])
    else (w, [])
  | ClickStart =>
    if formShown st && negb (startDisabled st false) then
      let (st1, reqs) := handleStart st in
      (mkWorld st1
         (inflight w
            ++ flat_map
                 (fun r =>
                    match r with
                    | AutoPentest t _ => [StartRequest t]
                    | _ => []
                    end) reqs),
       reqs)
    else (w, [])
  | ClickStop =>
    if stopShown st then
      (mkWorld st
         (inflight w
            ++ flat_map
                 (fun r =>
                    match r with
                    | Stop ag => [StopRequest ag]
                    | _ => []
                    end) (handleStop st)),
       handleStop st)
    else (w, [])
  | ClickClear =>
    if clearShown st then
      let (st', out) := commit st (handleClear st) in
      (mkWorld st' (inflight w ++ pollsStarted st' out), out)
    else (w, [])
  end.

Fixpoint run (w : World) (acts : list Action) : World * list Request :=
  match acts with
  | [] => (w, [])
  | a :: r =>
    let (w1, out1) := act w a in
    let (w2, out2) := run w1 r in
    (w2, (out1 ++ out2)%list)
  end.

Definition after (w : World) (acts : list Action) : World := fst (run w acts).

(** A freshly mounted page with the prompt loaded and a target typed, and
    the same page once a run was started: its first poll is in flight. *)
Definition ready : World := mkWorld Sample.ready [].

Definition started : World :=
  after ready
    [ClickStart;
     Settles 0 (StartReply Sample.env 1700000000001 (Resolved "agent-1"))].

Definition failed : Reply := StatusReply Sample.envs (Rejected Sample.err).

Definition answered (status phase : string) (ids : list string) : Reply :=
  StatusReply Sample.envs (Resolved (Sample.snapshot status phase ids)).

(** A request in flight that belongs to the session of the agent [a]: a
    [poll] or a stop request made for [a]. *)
Definition madeFor (a : string) (f : InFlight) : Prop :=
  match f with
  | StatusFetch c | LogsFetch c => c_agentId c = a
  | StopRequest b => b = a
  | StartRequest _ => False
  end.

(** The page during and after the session of [a]: the agent is [a] or the
    session was cleared, and what is in flight was made for [a]. *)
Definition sessionOf (a : string) (w : World) : Prop :=
  (agentId (page w) = Some a \/ agentId (page w) = None)
  /\ Forall (madeFor a) (inflight w).

(** No session and nothing in flight. *)
Definition idle (w : World) : Prop :=
  agentId (page w) = None /\ inflight w = [].



(** The poll health of the page: failure count, banner, live interval. *)
Definition health (w : World) : Z * bool * option Z :=
  (consecutiveErrorsRef (page w), connectionLost (page w), pollRef (page w)).

(** One cycle of an orderly session: the interval fires, the status fetch
    settles with [r], then the log fetch of the same [poll] settles. *)
Definition cycle (r : Reply) : list Action :=
  [TimerFires; Settles 0 r; Settles 0 (LogsReply (Resolved None))].

End Live.

(* ================================================================== *)
(** * Properties *)

(** Reading a field of an updated state: the projections are pushed
    through the setters, by need. *)
Ltac state_simpl :=
  cbn beta iota zeta delta
    [setTarget setPromptContent setAgentId setStatus setIsRunning
     setLogs setError setElapsedSeconds setActiveTab setToasts
     setNewFindingIds setConnectionLost setReportId set_pollRef
     set_seenFindingIdsRef set_prevPhaseRef set_prevStatusRef
     set_consecutiveErrorsRef set_localStorage
     target authType authValue selectedProvider selectedModel
     promptContent agentId status isRunning logs error elapsedSeconds
     activeTab toasts newFindingIds connectionLost reportId pollRef
     seenFindingIdsRef prevPhaseRef prevStatusRef consecutiveErrorsRef
     localStorage c_agentId c_connectionLost fst snd].

(* ------------------------------------------------------------------ *)
(** ** The definitions at work *)

Example trim_spaces : JS.trim "  https://a.test  " = "https://a.test".
Proof. reflexivity. Qed.

Example trim_blank : JS.trim "   " = "".
Proof. reflexivity. Qed.

Example slice_last_four : JS.slice (-4) [1; 2; 3; 4; 5; 6] = [3; 4; 5; 6].
Proof. reflexivity. Qed.

Example slice_short : JS.slice (-4) [1; 2] = [1; 2].
Proof. reflexivity. Qed.

Example set_keeps_first : JS.new_Set ["a"; "b"; "a"; "c"] = ["a"; "b"; "c"].
Proof. reflexivity. Qed.

Example toast_of_finding :
  findingToast (Sample.snapshot "running" "testing" ["f1"]) "f1"
  = [("HIGH: Issue f1", "high")].
Proof. reflexivity. Qed.

Example toast_of_completion :
  statusTransition (Some "running")
    (Sample.snapshot "completed" "report" ["f1"; "f2"])
  = [("Pentest complete! 2 findings", "completed")].
Proof. reflexivity. Qed.

Example start_sends_requests :
  snd (run Sample.ready
         [StartClicked;
          StartSettled Sample.env 1700000000001 (Resolved "agent-1")])
  = [AutoPentest "https://example.test"
       (mkOptions "full_llm_pentest" "You are a pentester." false
          None None None None);
     GetStatus "agent-1"].
Proof. reflexivity. Qed.

Example live_started :
  Live.page Live.started = Sample.started
  /\ Live.inflight Live.started
     = [Live.StatusFetch (mkClosure "agent-1" false)].
Proof. split; vm_compute; reflexivity. Qed.

Example elapsed_two_minutes :
  elapsedEffect (Some (Sample.snapshot "running" "testing" [])) true
    (1700000000000 + 125000) = Some 125.
Proof. reflexivity. Qed.

(* ------------------------------------------------------------------ *)
(** ** The toast queue *)

Section ToastQueue.

Lemma slice_tail_length (q : list Toast.t) :
  (List.length (JS.slice (- (MAX_TOASTS - 1)) q) <= 4)%nat.
Proof.
  unfold JS.slice, MAX_TOASTS. cbn [Z.ltb Z.compare Z.sub Z.add Z.opp Z.pos_sub].
  rewrite length_skipn. lia.
Qed.

Lemma slice_tail_short (q : list Toast.t) :
  (List.length q <= 4)%nat -> JS.slice (- (MAX_TOASTS - 1)) q = q.
Proof.
  intros H. unfold JS.slice, MAX_TOASTS.
  replace (- (5 - 1) <? 0) with true by reflexivity.
  replace (Z.to_nat (Z.max (Z.of_nat (List.length q) + - (5 - 1)) 0)) with 0%nat by lia.
  reflexivity.
Qed.

Lemma slice_tail_full (q : list Toast.t) :
  List.length q = 5%nat -> JS.slice (- (MAX_TOASTS - 1)) q = tl q.
Proof.
  intros H. unfold JS.slice, MAX_TOASTS. rewrite H.
  destruct q; [discriminate | reflexivity].
Qed.

Lemma addToast_length e m sev (q : list Toast.t) :
  (List.length (addToast e m sev q) <= 5)%nat.
Proof.
  unfold addToast. rewrite length_app. cbn [List.length].
  pose proof (slice_tail_length q). lia.
Qed.

Lemma dismissToast_length id (q : list Toast.t) :
  (List.length (dismissToast id q) <= List.length q)%nat.
Proof. apply filter_length_le. Qed.

Lemma toastOp_bounded (q : list Toast.t) (o : ToastOp) :
  (List.length q <= 5)%nat -> (List.length (toastOp q o) <= 5)%nat.
Proof.
  intros H. destruct o as [e m sev | id]; cbn [toastOp].
  - apply addToast_length.
  - pose proof (dismissToast_length id q). lia.
Qed.

Lemma toastOps_bounded (ops : list ToastOp) :
  forall q, (List.length q <= 5)%nat ->
            (List.length (toastOps ops q) <= 5)%nat.
Proof.
  unfold toastOps.
  induction ops as [| o ops IH]; intros q H; cbn [fold_left].
  - exact H.
  - apply IH, toastOp_bounded, H.
Qed.

Lemma addToasts_bounded envs (calls : list ToastCall) :
  forall k q, (List.length q <= 5)%nat ->
              (List.length (addToasts envs k calls q) <= 5)%nat.
Proof.
  induction calls as [| [m sev] calls IH]; intros k q H; cbn [addToasts].
  - exact H.
  - apply IH, addToast_length.
Qed.

End ToastQueue.

(** C6.  However pushes, dismissals and expiries follow one another, a
    queue that holds at most 5 toasts (the empty one, to begin with) never
    holds more than 5.  A push onto a queue of exactly 5 drops the oldest
    toast and appends the new one after the other four, in their order; a
    push onto a shorter queue only appends. *)
Theorem toast_queue_never_exceeds_five :
  (forall ops q,
      (List.length q <= 5)%nat -> (List.length (toastOps ops q) <= 5)%nat)
  /\ (forall e m sev q,
         List.length q = 5%nat ->
         addToast e m sev q = (tl q ++ [newToast e m sev])%list)
  /\ (forall e m sev q,
         (List.length q < 5)%nat ->
         addToast e m sev q = (q ++ [newToast e m sev])%list).
Proof.
  split; [| split].
  - intros ops q H. now apply toastOps_bounded.
  - intros e m sev q H. unfold addToast. now rewrite slice_tail_full.
  - intros e m sev q H. unfold addToast. rewrite slice_tail_short; [reflexivity | lia].
Qed.

Lemma toast_queue_never_exceeds_five_witness :
  let t k := newToast (mkEnv k "r" k) "m" "info" in
  let push k := Push (mkEnv k "r" k) "m" "info" in
  let six := [push 1; push 2; push 3; push 4; push 5; push 6] in
  (List.length (toastOps six []) <= 5)%nat
  /\ addToast (mkEnv 6 "r" 6) "m" "info" [t 1; t 2; t 3; t 4; t 5]
     = [t 2; t 3; t 4; t 5; t 6]
  /\ addToast (mkEnv 2 "r" 2) "m" "info" [t 1] = [t 1; t 2].
Proof.
  intros t push six.
  destruct toast_queue_never_exceeds_five as [Hb [Hfull Hshort]].
  split; [| split].
  - apply Hb. cbn. lia.
  - apply (Hfull (mkEnv 6 "r" 6) "m"%string "info"%string
             [t 1; t 2; t 3; t 4; t 5]).
    reflexivity.
  - apply (Hshort (mkEnv 2 "r" 2) "m"%string "info"%string [t 1]). cbn. lia.
Defined.

(* ------------------------------------------------------------------ *)
(** ** Status transitions *)

Lemma prevIs_true (prev : option string) (lit : string) :
  prevIs prev lit = true <-> prev = Some lit.
Proof.
  destruct prev as [p |]; cbn [prevIs].
  - rewrite String.eqb_eq. split; congruence.
  - split; discriminate.
Qed.

Lemma terminal_true (x : string) :
  terminal x = true <-> x = "completed" \/ x = "error" \/ x = "stopped".
Proof.
  unfold terminal. rewrite !orb_true_iff, !String.eqb_eq. tauto.
Qed.

(** C8.  The status rule raises exactly one toast when the previous status
    is "running" and the new one is "completed", "error" or "stopped", and
    no toast for any other pair, the pair with no previous status
    included. *)
Theorem status_transition_only_from_running :
  forall (prev : option string) (s : AgentStatus.t),
    (prev = Some "running" /\ terminal (AgentStatus.status s) = true ->
     List.length (statusTransition prev s) = 1%nat)
    /\ (~ (prev = Some "running" /\ terminal (AgentStatus.status s) = true) ->
        statusTransition prev s = []).
Proof.
  intros prev s. unfold statusTransition.
  pose proof (prevIs_true prev "running") as Hp.
  pose proof (terminal_true (AgentStatus.status s)) as Ht.
  destruct (prevIs prev "running").
  - assert (prev = Some "running") as -> by now apply Hp.
    cbn [andb].
    destruct (String.eqb_spec (AgentStatus.status s) "completed") as [Hc | Hc];
      [split; [reflexivity | intros H; exfalso; apply H; split; [reflexivity | apply Ht; auto]] |].
    destruct (String.eqb_spec (AgentStatus.status s) "error") as [He | He];
      [split; [reflexivity | intros H; exfalso; apply H; split; [reflexivity | apply Ht; auto]] |].
    destruct (String.eqb_spec (AgentStatus.status s) "stopped") as [Hs | Hs];
      [split; [reflexivity | intros H; exfalso; apply H; split; [reflexivity | apply Ht; auto]] |].
    split; [| reflexivity].
    intros [_ H]. apply Ht in H. destruct H as [H | [H | H]]; contradiction.
  - cbn [andb]. split; [| reflexivity].
    intros [H _]. apply Hp in H. discriminate.
Qed.

Lemma status_transition_only_from_running_witness :
  List.length
    (statusTransition (Some "running")
       (Sample.snapshot "completed" "report" ["f1"])) = 1%nat
  /\ statusTransition (Some "paused")
       (Sample.snapshot "running" "testing" []) = []
  /\ statusTransition None (Sample.snapshot "completed" "report" []) = [].
Proof.
  split; [| split].
  - apply (status_transition_only_from_running (Some "running")
             (Sample.snapshot "completed" "report" ["f1"])).
    split; reflexivity.
  - apply (status_transition_only_from_running (Some "paused")
             (Sample.snapshot "running" "testing" [])).
    intros [H _]. discriminate H.
  - apply (status_transition_only_from_running None
             (Sample.snapshot "completed" "report" [])).
    intros [H _]. discriminate H.
Defined.

(* ------------------------------------------------------------------ *)
(** ** Elapsed time *)

(** With the run over, the effect clamps the result at zero. *)
Lemma elapsed_not_running_nonneg (status : option AgentStatus.t) (now v : Z) :
  elapsedEffect status false now = Some v -> 0 <= v.
Proof.
  unfold elapsedEffect.
  destruct status as [s |]; [| discriminate].
  destruct (AgentStatus.started_at s); [| discriminate].
  intros H. injection H as <-. lia.
Qed.

(** With the run active it does not: the value is the floor of
    [(now - startTime) / 1000] whatever its sign. *)
Lemma elapsed_running_value (s : AgentStatus.t) (startTime now : Z) :
  AgentStatus.started_at s = Some startTime ->
  elapsedEffect (Some s) true now = Some ((now - startTime) / 1000).
Proof. intros H. unfold elapsedEffect. now rewrite H. Qed.

(** C9.  A run that is active, started (by the agent's clock) at
    1700000000000 ms and observed when the page's clock reads 5 seconds
    less: the running branch sets the elapsed time to -5, where the branch
    for a finished run, at the same clocks, sets 0. *)
Theorem elapsed_running_negative :
  let s := Sample.snapshot "running" "recon" [] in
  elapsedEffect (Some s) true (1700000000000 - 5000) = Some (-5)
  /\ elapsedEffect (Some s) false (1700000000000 - 5000) = Some 0.
Proof. split; reflexivity. Qed.

(* ------------------------------------------------------------------ *)
(** ** Start, stop *)

Lemma sameDeps_refl (st : State) : sameDeps st st = true.
Proof.
  unfold sameDeps. rewrite Bool.eqb_reflx, andb_true_r.
  destruct (agentId st); [apply String.eqb_refl | reflexivity].
Qed.

Lemma commit_same (st : State) : commit st st = (st, []).
Proof. unfold commit. now rewrite sameDeps_refl. Qed.

Lemma truthy_false (x : string) : JS.truthy x = false <-> x = "".
Proof.
  unfold JS.truthy. rewrite negb_false_iff. apply String.eqb_eq.
Qed.

(** C10.  When the trimmed target is empty, or the prompt is not loaded
    (absent or empty), [handleStart] returns at once: the state is the one
    it was called in, field for field, and no request is sent; the render
    that follows runs no effect. *)
Theorem handleStart_guard_is_silent :
  forall st : State,
    JS.trim (target st) = "" \/ JS.otruthy (promptContent st) = false ->
    handleStart st = (st, []) /\ step st StartClicked = (st, []).
Proof.
  intros st H.
  assert (handleStart st = (st, [])) as E.
  { unfold handleStart. destruct H as [H | H].
    - rewrite H. reflexivity.
    - rewrite H, orb_true_r. reflexivity. }
  split; [exact E |].
  cbn [step]. rewrite E. unfold andThenCommit. cbn [fst snd].
  now rewrite commit_same.
Qed.

Lemma handleStart_guard_is_silent_witness :
  let blank := setTarget "   " Sample.ready in
  let unloaded := setPromptContent None Sample.ready in
  (handleStart blank = (blank, []) /\ step blank StartClicked = (blank, []))
  /\ (handleStart unloaded = (unloaded, [])
      /\ step unloaded StartClicked = (unloaded, [])).
Proof.
  intros blank unloaded. split.
  - apply (handleStart_guard_is_silent blank). left. reflexivity.
  - apply (handleStart_guard_is_silent unloaded). right. reflexivity.
Defined.

(** C4, as stated, fails: in a running session whose stop request is
    rejected, the run flag stays set. *)
Lemma stop_rejected_keeps_running :
  ~ stopClearsFlag Sample.started (Rejected Sample.err).
Proof. intros [_ H]. discriminate H. Qed.

(** C4, amended.  With an active agent identifier the stop command sends
    one stop request for it.  When the request succeeds the run flag is
    marked inactive; when it fails the failure is swallowed and the state,
    run flag included, is left as it was. *)
Theorem handleStop_clears_flag_on_success :
  forall (st : State) (a : string),
    agentId st = Some a -> JS.truthy a = true ->
    handleStop st = [Stop a]
    /\ isRunning (handleStop_settled (Resolved tt) st) = false
    /\ forall err, handleStop_settled (Rejected err) st = st.
Proof.
  intros st a Ha Ht. unfold handleStop. rewrite Ha, Ht.
  split; [reflexivity |]. split; reflexivity.
Qed.

Lemma handleStop_clears_flag_on_success_witness :
  handleStop Sample.started = [Stop "agent-1"]
  /\ isRunning (handleStop_settled (Resolved tt) Sample.started) = false
  /\ forall err, handleStop_settled (Rejected err) Sample.started
                 = Sample.started.
Proof.
  apply (handleStop_clears_flag_on_success Sample.started "agent-1");
    reflexivity.
Defined.

(* ------------------------------------------------------------------ *)
(** ** New findings *)

Section Sets.

Lemma set_add_In (x y : string) (s : list string) :
  In y (JS.set_add x s) <-> y = x \/ In y s.
Proof.
  induction s as [| z s IH]; cbn [JS.set_add].
  - cbn. intuition.
  - destruct (String.eqb_spec z x) as [-> | Hzx].
    + cbn. intuition.
    + cbn [In]. rewrite IH. intuition.
Qed.

Lemma set_add_NoDup (x : string) (s : list string) :
  NoDup s -> NoDup (JS.set_add x s).
Proof.
  induction s as [| z s IH]; intros H; cbn [JS.set_add].
  - constructor; [intros [] | constructor].
  - destruct (String.eqb_spec z x) as [-> | Hzx]; [exact H |].
    inversion H as [| ? ? Hnotin Hs]; subst.
    constructor; [| now apply IH].
    rewrite set_add_In. intros [-> | Hin]; [now apply Hzx | now apply Hnotin].
Qed.

Lemma fold_set_add_In (arr : list string) :
  forall acc y,
    In y (fold_left (fun s x => JS.set_add x s) arr acc)
    <-> In y arr \/ In y acc.
Proof.
  induction arr as [| a arr IH]; intros acc y; cbn [fold_left].
  - cbn. intuition.
  - rewrite IH, set_add_In. cbn [In]. intuition.
Qed.

Lemma fold_set_add_NoDup (arr : list string) :
  forall acc, NoDup acc ->
              NoDup (fold_left (fun s x => JS.set_add x s) arr acc).
Proof.
  induction arr as [| a arr IH]; intros acc H; cbn [fold_left].
  - exact H.
  - apply IH, set_add_NoDup, H.
Qed.

Lemma new_Set_In (arr : list string) (y : string) :
  In y (JS.new_Set arr) <-> In y arr.
Proof. unfold JS.new_Set. rewrite fold_set_add_In. cbn. intuition. Qed.

Lemma new_Set_NoDup (arr : list string) : NoDup (JS.new_Set arr).
Proof. apply fold_set_add_NoDup. constructor. Qed.

Lemma has_true (s : list string) (x : string) :
  JS.has s x = true <-> In x s.
Proof.
  unfold JS.has. rewrite existsb_exists. split.
  - intros [y [Hin Heq]]. apply String.eqb_eq in Heq. now subst.
  - intros Hin. exists x. split; [exact Hin | apply String.eqb_refl].
Qed.

End Sets.

Lemma currentIds_NoDup (s : AgentStatus.t) : NoDup (currentIds s).
Proof. apply new_Set_NoDup. Qed.

Lemma newIds_In (seen : list string) (s : AgentStatus.t) (x : string) :
  In x (newIds seen s) -> In x (currentIds s) /\ ~ In x seen.
Proof.
  unfold newIds. destruct (0 <? Z.of_nat (List.length seen)); [| intros []].
  rewrite filter_In, negb_true_iff. intros [Hin Hhas]. split; [exact Hin |].
  intros Hseen. apply has_true in Hseen. congruence.
Qed.

Lemma newIds_NoDup (seen : list string) (s : AgentStatus.t) :
  NoDup (newIds seen s).
Proof.
  unfold newIds. destruct (0 <? Z.of_nat (List.length seen)).
  - apply NoDup_filter, currentIds_NoDup.
  - constructor.
Qed.

(** The guard of the detection: against an empty seen set nothing is
    reported, whatever the snapshot holds. *)
Lemma newIds_empty_seen (s : AgentStatus.t) : newIds [] s = [].
Proof. reflexivity. Qed.

Lemma find_by_id (l : list AgentFinding.t) (x : string) :
  In x (map AgentFinding.id l) ->
  exists f, find (fun y => (AgentFinding.id y =? x)%string) l = Some f.
Proof.
  induction l as [| g l IH]; cbn [map In find]; [intros [] |].
  intros H. destruct (String.eqb_spec (AgentFinding.id g) x) as [E | E].
  - now exists g.
  - destruct H as [H | H]; [contradiction | now apply IH].
Qed.

Lemma findingToast_one (s : AgentStatus.t) (x : string) :
  In x (currentIds s) -> List.length (findingToast s x) = 1%nat.
Proof.
  unfold currentIds, findingToast. rewrite new_Set_In. intros H.
  destruct (find_by_id _ _ H) as [f ->]. reflexivity.
Qed.

Lemma findingToasts_length (s : AgentStatus.t) (ids : list string) :
  incl ids (currentIds s) ->
  List.length (findingToasts s ids) = List.length ids.
Proof.
  unfold findingToasts.
  induction ids as [| x ids IH]; intros H; cbn [flat_map]; [reflexivity |].
  rewrite length_app, findingToast_one, IH; [reflexivity | |].
  - intros y Hy. apply H. now right.
  - apply H. now left.
Qed.

(** One toast per identifier reported as new. *)
Lemma newFindingToasts_length (st : State) (s : AgentStatus.t) :
  List.length (newFindingToasts st s) = List.length (reportedNew st s).
Proof.
  unfold newFindingToasts. apply findingToasts_length.
  intros x Hx. now apply newIds_In in Hx.
Qed.

(** What a successful fetch leaves in the refs. *)
Lemma pollOk_refs (f : Fetch) (st : State) :
  seenFindingIdsRef (pollOk f st) = currentIds (f_status f)
  /\ prevPhaseRef (pollOk f st) = nextPhase (f_status f)
  /\ prevStatusRef (pollOk f st) = Some (AgentStatus.status (f_status f))
  /\ consecutiveErrorsRef (pollOk f st) = 0.
Proof. unfold pollOk, poll_resolved. state_simpl. repeat split. Qed.

(** The toasts it pushes are those of the three rules, in that order. *)
Lemma pollOk_toasts (f : Fetch) (st : State) :
  toasts (pollOk f st)
  = addToasts (f_envs f) 0 (pollToasts st (f_status f)) (toasts st).
Proof.
  unfold pollOk, poll_resolved, pollToasts, phaseToasts, statusToasts,
    newFindingToasts, reportedNew. state_simpl. reflexivity.
Qed.

Lemma seenSizes_head (fs : list Fetch) (st : State) :
  exists r, seenSizes fs st = List.length (seenFindingIdsRef st) :: r.
Proof. destruct fs; cbn [seenSizes]; eauto. Qed.

(** Along fetches whose findings persist: sizes grow, reports are fresh
    and never name an identifier that was in the seen set. *)
Lemma persist_accumulates (fs : list Fetch) :
  forall st : State,
    NoDup (seenFindingIdsRef st) ->
    findingsPersist (seenFindingIdsRef st) fs ->
    seenAccumulates fs st
    /\ forall x, In x (reportedAlong fs st) -> ~ In x (seenFindingIdsRef st).
Proof.
  unfold seenAccumulates.
  induction fs as [| f r IH]; intros st Hnd Hp.
  - cbn. repeat split; [constructor | intros x []].
  - destruct Hp as [Hincl Hp].
    destruct (pollOk_refs f st) as [Hseen _].
    destruct (IH (pollOk f st)) as [[Hsz Hfresh] Hout].
    { rewrite Hseen. apply currentIds_NoDup. }
    { now rewrite Hseen. }
    rewrite Hseen in Hout.
    cbn [seenSizes reportedAlong]. split; [split |].
    + destruct (seenSizes_head r (pollOk f st)) as [tl E].
      rewrite E in *. cbn [nondecreasing]. split; [| exact Hsz].
      rewrite Hseen. now apply NoDup_incl_length.
    + apply NoDup_app; [apply newIds_NoDup | exact Hfresh |].
      intros x Hx Hx'. apply newIds_In in Hx. now apply (Hout x).
    + intros x Hx. apply in_app_or in Hx. destruct Hx as [Hx | Hx].
      * now apply newIds_In in Hx.
      * intros Hs. apply (Hout x Hx). now apply Hincl.
Qed.

(** C1, as stated, fails.  Snapshots with findings {a}, {a, b}, {a},
    {a, b}: the seen set goes from two identifiers back to one, and "b" is
    reported as new by the second snapshot and again by the fourth. *)
Lemma seen_set_shrinks_and_reports_again :
  let fs := [Sample.fetch "running" "testing" ["a"];
             Sample.fetch "running" "testing" ["a"; "b"];
             Sample.fetch "running" "testing" ["a"];
             Sample.fetch "running" "testing" ["a"; "b"]] in
  seenSizes fs Sample.started = [0; 1; 2; 1; 2]%nat
  /\ reportedAlong fs Sample.started = ["b"; "b"]
  /\ ~ nondecreasing (seenSizes fs Sample.started)
  /\ ~ NoDup (reportedAlong fs Sample.started)
  /\ ~ seenAccumulates fs Sample.started.
Proof.
  intros fs.
  assert (seenSizes fs Sample.started = [0; 1; 2; 1; 2]%nat) as E1
      by reflexivity.
  assert (reportedAlong fs Sample.started = ["b"; "b"]) as E2 by reflexivity.
  assert (~ nondecreasing (seenSizes fs Sample.started)) as N1.
  { rewrite E1. cbn [nondecreasing]. lia. }
  assert (~ NoDup (reportedAlong fs Sample.started)) as N2.
  { rewrite E2. intros H. inversion H as [| ? ? Hnotin _]; subst.
    apply Hnotin. now left. }
  repeat split; try assumption.
  intros [H _]. now apply N1.
Qed.

(** C1, amended.  A successful fetch replaces the seen set by the
    finding-identifier set of its snapshot, and raises one toast per
    identifier it reports as new.  Along every sequence of successful
    fetches in which no identifier disappears from one snapshot to the
    next, the seen set never gets smaller and no identifier is reported as
    new a second time. *)
Theorem seen_set_is_last_snapshot :
  (forall (f : Fetch) (st : State),
      seenFindingIdsRef (pollOk f st) = currentIds (f_status f)
      /\ List.length (newFindingToasts st (f_status f))
         = List.length (reportedNew st (f_status f)))
  /\ (forall (fs : list Fetch) (st : State),
         NoDup (seenFindingIdsRef st) ->
         findingsPersist (seenFindingIdsRef st) fs ->
         seenAccumulates fs st).
Proof.
  split.
  - intros f st. split.
    + apply pollOk_refs.
    + apply newFindingToasts_length.
  - intros fs st Hnd Hp. now apply persist_accumulates.
Qed.

Lemma seen_set_is_last_snapshot_witness :
  let fs := [Sample.fetch "running" "recon" [];
             Sample.fetch "running" "testing" ["a"];
             Sample.fetch "running" "testing" ["a"; "b"];
             Sample.fetch "completed" "report" ["a"; "b"; "c"]] in
  NoDup (seenFindingIdsRef Sample.started)
  /\ findingsPersist (seenFindingIdsRef Sample.started) fs
  /\ seenAccumulates fs Sample.started.
Proof.
  intros fs.
  assert (NoDup (seenFindingIdsRef Sample.started)) as Hnd by constructor.
  assert (findingsPersist (seenFindingIdsRef Sample.started) fs) as Hp.
  { cbn. repeat split; intros x Hx; cbn in *; tauto. }
  split; [exact Hnd | split; [exact Hp |]].
  exact (proj2 seen_set_is_last_snapshot fs Sample.started Hnd Hp).
Defined.

(** C3, as stated, fails.  In a session just started, after a first
    snapshot (running, "recon", no findings) the second one (running,
    "testing", finding "f1") raises the phase toast but no new-finding
    toast: the seen set is still empty, so the detection is skipped. *)
Lemma first_finding_is_not_notified :
  let f1 := Sample.fetch "running" "recon" [] in
  let f2 := Sample.fetch "running" "testing" ["f1"] in
  pollToasts (pollOk f1 Sample.started) (f_status f2)
  = [("Phase: testing", "info")]
  /\ ~ secondFetchNotifies Sample.started f1 f2.
Proof.
  intros f1 f2. split; [reflexivity |].
  intros [_ H]. discriminate H.
Qed.

(** C3, amended.  In a fresh session (no identifier seen, no previous
    phase or status) whose first snapshot is running, "recon", without
    findings, that snapshot raises no toast, and a second snapshot that is
    running, "testing", with the single finding "f1" raises exactly one
    toast, the phase one: "f1" is not reported as new, it is only recorded
    as seen.  The detection is skipped whenever the seen set is empty
    before the snapshot, on any poll; against a non-empty seen set every
    identifier of the snapshot that is not in it is reported. *)
Theorem second_poll_notifies_phase_only :
  forall (st : State) (f1 f2 : Fetch) (f : AgentFinding.t),
    seenFindingIdsRef st = [] ->
    prevPhaseRef st = None ->
    prevStatusRef st = None ->
    AgentStatus.status (f_status f1) = "running" ->
    AgentStatus.phase (f_status f1) = "recon" ->
    findingsOf (f_status f1) = [] ->
    AgentStatus.status (f_status f2) = "running" ->
    AgentStatus.phase (f_status f2) = "testing" ->
    findingsOf (f_status f2) = [f] ->
    AgentFinding.id f = "f1" ->
    let st1 := pollOk f1 st in
    pollToasts st (f_status f1) = []
    /\ phaseToasts st1 (f_status f2) = [("Phase: testing", "info")]
    /\ statusToasts st1 (f_status f2) = []
    /\ reportedNew st1 (f_status f2) = []
    /\ newFindingToasts st1 (f_status f2) = []
    /\ seenFindingIdsRef (pollOk f2 st1) = ["f1"]
    /\ (forall st' s, seenFindingIdsRef st' = [] -> newFindingToasts st' s = [])
    /\ (forall st' s x,
           seenFindingIdsRef st' <> [] ->
           (In x (reportedNew st' s)
            <-> In x (currentIds s) /\ ~ In x (seenFindingIdsRef st'))).
Proof.
  intros st f1 f2 f Hseen Hphase Hstatus Hs1 Hp1 Hf1 Hs2 Hp2 Hf2 Hid st1.
  destruct (pollOk_refs f1 st) as [Eseen [Ephase [Estatus _]]].
  fold st1 in Eseen, Ephase, Estatus.
  assert (currentIds (f_status f1) = []) as Eids1
      by (unfold currentIds; now rewrite Hf1).
  assert (currentIds (f_status f2) = ["f1"]) as Eids2
      by (unfold currentIds; now rewrite Hf2, <- Hid).
  split; [| split; [| split; [| split; [| split; [| split; [| split]]]]]].
  - unfold pollToasts, phaseToasts, statusToasts, newFindingToasts, reportedNew.
    now rewrite Hseen, Hphase, Hstatus.
  - unfold phaseToasts, phaseChange. rewrite Ephase. unfold nextPhase.
    now rewrite Hp1, Hp2.
  - unfold statusToasts, statusTransition. now rewrite Estatus, Hs1, Hs2.
  - unfold reportedNew. now rewrite Eseen, Eids1.
  - unfold newFindingToasts, reportedNew. now rewrite Eseen, Eids1.
  - destruct (pollOk_refs f2 st1) as [E _]. now rewrite E.
  - intros st' s E. unfold newFindingToasts, reportedNew. now rewrite E.
  - intros st' s x Hne. split; [intros Hin; now apply newIds_In in Hin |].
    intros [Hin Hnot]. unfold reportedNew, newIds.
    destruct (seenFindingIdsRef st') as [| y l]; [contradiction |].
    replace (0 <? Z.of_nat (List.length (y :: l))) with true
      by (symmetry; apply Z.ltb_lt; cbn [List.length]; lia).
    apply filter_In. split; [exact Hin |].
    apply negb_true_iff. apply not_true_is_false.
    intros Hhas. apply Hnot. now apply has_true.
Qed.

Lemma second_poll_notifies_phase_only_witness :
  let f1 := Sample.fetch "running" "recon" [] in
  let f2 := Sample.fetch "running" "testing" ["f1"] in
  phaseToasts (pollOk f1 Sample.started) (f_status f2)
  = [("Phase: testing", "info")]
  /\ newFindingToasts (pollOk f1 Sample.started) (f_status f2) = []
  /\ seenFindingIdsRef (pollOk f2 (pollOk f1 Sample.started)) = ["f1"].
Proof.
  intros f1 f2.
  pose proof (second_poll_notifies_phase_only Sample.started f1 f2
                (Sample.finding "f1")
                eq_refl eq_refl eq_refl eq_refl eq_refl eq_refl
                eq_refl eq_refl eq_refl eq_refl) as H.
  cbv zeta in H.
  destruct H as [_ [H1 [_ [_ [H2 [H3 _]]]]]].
  repeat split; assumption.
Defined.

(* ------------------------------------------------------------------ *)
(** ** Renders and the polling interval *)

Lemma set_pollRef_same (st : State) : set_pollRef (pollRef st) st = st.
Proof. now destruct st. Qed.

(** With the same agent before and after, a render re-runs the polling
    effect exactly when [connectionLost] flipped; the effect then replaces
    the interval by one whose period follows the failure count, and calls
    [poll] at once. *)
Lemma commit_same_agent (old new : State) (a : string) :
  agentId old = Some a -> JS.truthy a = true -> agentId new = Some a ->
  commit old new
  = if Bool.eqb (connectionLost old) (connectionLost new)
    then (new, [])
    else (set_pollRef
            (Some (if 3 <=? consecutiveErrorsRef new
                   then POLL_INTERVAL_ERROR else POLL_INTERVAL)) new,
          [GetStatus a]).
Proof.
  intros Ho Ht Hn. unfold commit, sameDeps. rewrite Ho, Hn, String.eqb_refl.
  cbn [andb JS.otruthy]. rewrite Ht.
  destruct (Bool.eqb (connectionLost old) (connectionLost new)); [reflexivity |].
  unfold pollingEffect, pollingCleanup. state_simpl. rewrite Hn, Ht.
  now destruct new.
Qed.

Lemma step_resolved (st : State) (a : string) envs (s : AgentStatus.t) :
  agentId st = Some a -> JS.truthy a = true ->
  let st' := fst (step st (StatusSettled envs (Resolved s))) in
  agentId st' = Some a
  /\ connectionLost st' = false
  /\ consecutiveErrorsRef st' = 0
  /\ isRunning st'
     = ((AgentStatus.status s =? "running") || (AgentStatus.status s =? "paused"))%string
  /\ pollRef st' = if connectionLost st then Some POLL_INTERVAL else pollRef st.
Proof.
  intros Ha Ht. cbn [step]. rewrite Ha, Ht. unfold andThenCommit.
  rewrite (commit_same_agent _ _ a Ha Ht) by (unfold poll_resolved; now state_simpl).
  unfold poll_resolved. state_simpl.
  destruct (connectionLost st); cbn [Bool.eqb]; state_simpl; repeat split; assumption.
Qed.







Lemma after_cons (st : State) (ev : Event) (evs : list Event) :
  after st (ev :: evs) = after (fst (step st ev)) evs.
Proof.
  unfold after. cbn [run].
  destruct (step st ev) as [st1 out1]. cbn [fst].
  now destruct (run st1 evs).
Qed.

Lemma after_app (evs1 evs2 : list Event) :
  forall st, after st (evs1 ++ evs2) = after (after st evs1) evs2.
Proof.
  induction evs1 as [| ev evs1 IH]; intros st.
  - reflexivity.
  - cbn [app]. now rewrite !after_cons, IH.
Qed.

(** In a coherent session the live interval is the degraded one exactly
    when the count has reached 3. *)
Lemma coherent_interval (st : State) :
  coherent st ->
  pollRef st
  = Some (if 3 <=? consecutiveErrorsRef st
          then POLL_INTERVAL_ERROR else POLL_INTERVAL).
Proof. intros [_ [_ [Hcl Hp]]]. now rewrite Hp, Hcl. Qed.

(** What [handleStart] resets once its guard is passed. *)
Lemma handleStart_resets (st : State) :
  JS.truthy (JS.trim (target st)) = true ->
  JS.otruthy (promptContent st) = true ->
  let st' := fst (step st StartClicked) in
  st' = fst (handleStart st)
  /\ seenFindingIdsRef st' = []
  /\ prevPhaseRef st' = None
  /\ prevStatusRef st' = None
  /\ consecutiveErrorsRef st' = 0
  /\ agentId st' = agentId st
  /\ connectionLost st' = connectionLost st
  /\ pollRef st' = pollRef st.
Proof.
  intros Ht Hp. cbn [step]. unfold andThenCommit, handleStart.
  rewrite Ht, Hp. cbn [negb orb fst snd]. unfold commit.
  match goal with
  | |- context [sameDeps ?a ?b] =>
    replace (sameDeps a b) with true
      by (unfold sameDeps; state_simpl; symmetry; apply (sameDeps_refl st))
  end.
  state_simpl. repeat split.
Qed.

(** What the start of a run sets up once the agent answered. *)
Lemma startSettled_polls (st : State) (e : Env) (t0 : Z) (agent_id : string) :
  agentId st = None -> JS.truthy agent_id = true ->
  let st' := fst (step st (StartSettled e t0 (Resolved agent_id))) in
  agentId st' = Some agent_id
  /\ connectionLost st' = connectionLost st
  /\ consecutiveErrorsRef st' = consecutiveErrorsRef st
  /\ seenFindingIdsRef st' = seenFindingIdsRef st
  /\ prevPhaseRef st' = prevPhaseRef st
  /\ prevStatusRef st' = prevStatusRef st
  /\ pollRef st'
     = Some (if 3 <=? consecutiveErrorsRef st
             then POLL_INTERVAL_ERROR else POLL_INTERVAL).
Proof.
  intros Ha Hid. cbn [step]. unfold andThenCommit, handleStart_settled.
  cbn [fst snd]. unfold commit, sameDeps. state_simpl. rewrite Ha.
  cbn [andb JS.otruthy]. unfold pollingEffect. state_simpl. rewrite Hid.
  state_simpl. repeat split.
Qed.

(** A session is coherent from its start on. *)
Lemma started_coherent (st : State) (e : Env) (t0 : Z) (agent_id : string) :
  agentId st = None -> connectionLost st = false ->
  JS.truthy (JS.trim (target st)) = true ->
  JS.otruthy (promptContent st) = true ->
  JS.truthy agent_id = true ->
  coherent (after st [StartClicked; StartSettled e t0 (Resolved agent_id)]).
Proof.
  intros Ha Hcl Ht Hp Hid. rewrite !after_cons.
  destruct (handleStart_resets st Ht Hp) as [_ [_ [_ [_ [En [Ea [Ec _]]]]]]].
  cbv zeta in *.
  set (st1 := fst (step st StartClicked)) in *.
  assert (agentId st1 = None) as Ha1 by congruence.
  destruct (startSettled_polls st1 e t0 agent_id Ha1 Hid)
    as [Ea2 [Ec2 [En2 [_ [_ [_ Ep2]]]]]].
  cbv zeta in *. unfold after. cbn [run fst].
  unfold coherent. rewrite Ea2, Ec2, En2, Ep2, Ec, En, Hcl.
  cbn [JS.otruthy]. repeat split; [assumption | lia].
Qed.

(** So is a session restored from storage when the page mounts. *)
Lemma restored_coherent (sess : Session.t) :
  JS.truthy (Session.agentId sess) = true ->
  let st0 := initialState (Some sess) in
  coherent (fst (commit st0 (restoreSession st0))).
Proof.
  intros Ht st0. subst st0.
  unfold commit, sameDeps, restoreSession, initialState. state_simpl.
  cbn [andb JS.otruthy]. unfold pollingEffect. state_simpl. rewrite Ht.
  unfold coherent. state_simpl. cbn [JS.otruthy].
  repeat split; [assumption | lia].
Qed.

(* ------------------------------------------------------------------ *)
(** ** Cadence *)

(** C7.  The interval is chosen when the polling effect runs, and the
    effect runs when [connectionLost] changes; two runs of the page show
    the choice missing the failure count.

    A session that starts with the banner up (the previous session was
    cleared while a poll was in flight, and that poll failed): after three
    status fetches of the new session have failed in a row the flag is
    set as it was before, the effect does not run, and the live interval is
    still the normal one.

    A poll overtaken by the third failure: it was started before the
    banner went up, so its success resets the count and leaves the flag,
    and the live interval is still the degraded one after a successful
    status fetch.  The poll that the effect started when the banner went
    up brings the interval back. *)
Theorem interval_misses_the_failure_count :
  let ended :=
    Live.after Live.started
      ([Live.Settles 0 (Live.answered "completed" "report" ["f1"]);
        Live.Settles 0 (Live.LogsReply (Resolved None))]
       ++ Live.cycle Live.failed ++ Live.cycle Live.failed
       ++ [Live.TimerFires])%list in
  let restarted :=
    Live.after ended
      [Live.ClickClear;
       Live.Settles 0 Live.failed;
       Live.Settles 0 (Live.LogsReply (Resolved None));
       Live.ClickStart;
       Live.Settles 0
         (Live.StartReply Sample.env 1700000000002 (Resolved "agent-2"))] in
  let thrice :=
    (Live.Settles 0 Live.failed
       :: Live.Settles 0 (Live.LogsReply (Resolved None))
       :: Live.cycle Live.failed ++ Live.cycle Live.failed)%list in
  let overtaken :=
    Live.after Live.started
      [Live.TimerFires; Live.TimerFires; Live.TimerFires;
       Live.Settles 0 Live.failed; Live.Settles 0 Live.failed;
       Live.Settles 0 Live.failed] in
  let success := Live.answered "running" "recon" [] in
  Live.health ended = (2, false, Some POLL_INTERVAL)
  /\ Live.health restarted = (0, true, Some POLL_INTERVAL)
  /\ Live.health (Live.after restarted thrice) = (3, true, Some POLL_INTERVAL)
  /\ Live.health overtaken = (3, true, Some POLL_INTERVAL_ERROR)
  /\ nth_error (Live.inflight overtaken) 0
     = Some (Live.StatusFetch (mkClosure "agent-1" false))
  /\ Live.health (Live.after overtaken [Live.Settles 0 success])
     = (0, true, Some POLL_INTERVAL_ERROR)
  /\ Live.health
       (Live.after overtaken [Live.Settles 0 success; Live.Settles 3 success])
     = (0, false, Some POLL_INTERVAL).
Proof. vm_compute. repeat split. Qed.

(* ------------------------------------------------------------------ *)
(** ** Terminal statuses *)

Lemma terminal_not_running (x : string) :
  terminal x = true ->
  ((x =? "running") || (x =? "paused"))%string = false.
Proof.
  intros H. apply terminal_true in H.
  destruct H as [-> | [-> | ->]]; reflexivity.
Qed.

(** Clearing the session is what cancels the interval. *)
Lemma clear_stops_polling (st : State) (a : string) :
  agentId st = Some a -> JS.truthy a = true ->
  pollingStopped (fst (step st ClearClicked)).
Proof.
  intros Ha Ht. cbn [step]. unfold andThenCommit. cbn [fst snd].
  unfold commit, sameDeps, handleClear. state_simpl. rewrite Ha.
  cbn [andb JS.otruthy]. rewrite Ht.
  unfold pollingEffect, pollingCleanup. state_simpl.
  unfold pollingStopped, tick. state_simpl. now split.
Qed.

(** C2, as stated, fails.  The three snapshots of a run that completes:
    after the one that reports "completed" the interval of 1500 ms is
    still live, and when it fires the page asks for the status again. *)
Lemma terminal_snapshot_keeps_polling :
  let polled s := StatusSettled Sample.envs (Resolved s) in
  let st' :=
    after Sample.started
      [polled (Sample.snapshot "running" "recon" []);
       Tick;
       polled (Sample.snapshot "running" "testing" ["f1"]);
       Tick;
       polled (Sample.snapshot "completed" "testing" ["f1"])] in
  isRunning st' = false
  /\ pollRef st' = Some 1500
  /\ tick st' = [GetStatus "agent-1"]
  /\ ~ pollingStopped st'.
Proof.
  intros polled st'.
  assert (pollRef st' = Some 1500) as Hp by reflexivity.
  repeat split; try reflexivity.
  intros [H _]. rewrite Hp in H. discriminate H.
Qed.

(** C2, amended.  When a successfully fetched snapshot reports a terminal
    status in a session that is polling, the run flag is marked inactive
    and the agent identifier is kept; the interval stays live and, when it
    fires, another status fetch is issued for the same agent.  The polling
    stops when the session is cleared. *)
Theorem terminal_snapshot_clears_run_flag_only :
  forall (st : State) (a : string) (envs : nat -> Env) (s : AgentStatus.t),
    agentId st = Some a -> JS.truthy a = true ->
    pollRef st <> None ->
    terminal (AgentStatus.status s) = true ->
    let st' := fst (step st (StatusSettled envs (Resolved s))) in
    isRunning st' = false
    /\ agentId st' = Some a
    /\ pollRef st' <> None
    /\ tick st' = [GetStatus a]
    /\ pollingStopped (fst (step st' ClearClicked)).
Proof.
  intros st a envs s Ha Ht Hp Hterm st'.
  destruct (step_resolved st a envs s Ha Ht) as [Ea [_ [_ [Er Ep]]]].
  fold st' in Ea, Er, Ep.
  assert (pollRef st' <> None) as Hp'.
  { rewrite Ep. destruct (connectionLost st); [discriminate | exact Hp]. }
  split; [| split; [| split; [| split]]].
  - rewrite Er. now apply terminal_not_running.
  - exact Ea.
  - exact Hp'.
  - unfold tick. rewrite Ea. destruct (pollRef st'); [reflexivity | contradiction].
  - now apply (clear_stops_polling st' a).
Qed.

Lemma terminal_snapshot_clears_run_flag_only_witness :
  let s := Sample.snapshot "completed" "report" ["f1"] in
  let st' := fst (step Sample.started (StatusSettled Sample.envs (Resolved s))) in
  isRunning st' = false
  /\ agentId st' = Some "agent-1"
  /\ pollRef st' <> None
  /\ tick st' = [GetStatus "agent-1"]
  /\ pollingStopped (fst (step st' ClearClicked)).
Proof.
  intros s st'.
  apply (terminal_snapshot_clears_run_flag_only Sample.started "agent-1"
           Sample.envs s); try reflexivity.
  vm_compute. discriminate.
Defined.

(* ------------------------------------------------------------------ *)
(** ** Clearing *)

(** What [handleClear] does to the refs: three are reset, the failure
    count is not among them. *)
Lemma handleClear_refs (st : State) :
  seenFindingIdsRef (handleClear st) = []
  /\ prevPhaseRef (handleClear st) = None
  /\ prevStatusRef (handleClear st) = None
  /\ connectionLost (handleClear st) = false
  /\ consecutiveErrorsRef (handleClear st) = consecutiveErrorsRef st.
Proof. unfold handleClear. state_simpl. repeat split. Qed.

(** C5.  A session that ended, lost its connection (three status fetches
    failed) and is then cleared with the Clear button: the seen set and
    the previous phase and status are back at their initial values, the
    failure count is still 3, where a freshly mounted page has 0.  The
    difference shows: the poll that was in flight when the button was
    clicked fails as well, and this one failure raises the connection
    banner on the cleared page, where on a fresh page it takes three.  The
    run started next resets the count ([handleStart] does), and begins
    with the banner up. *)
Theorem clear_keeps_failure_count :
  let ended :=
    Live.after Live.started
      ([Live.Settles 0 (Live.answered "completed" "report" ["f1"]);
        Live.Settles 0 (Live.LogsReply (Resolved None))]
       ++ Live.cycle Live.failed ++ Live.cycle Live.failed
       ++ Live.cycle Live.failed)%list in
  let cleared := Live.after ended [Live.ClickClear] in
  let restarted :=
    Live.after cleared
      [Live.Settles 0 Live.failed;
       Live.Settles 0 (Live.LogsReply (Resolved None));
       Live.ClickStart;
       Live.Settles 0
         (Live.StartReply Sample.env 1700000000002 (Resolved "agent-2"))] in
  Live.clearShown (Live.page ended) = true
  /\ Live.health ended = (3, true, Some POLL_INTERVAL_ERROR)
  /\ seenFindingIdsRef (Live.page cleared) = []
  /\ prevPhaseRef (Live.page cleared) = None
  /\ prevStatusRef (Live.page cleared) = None
  /\ consecutiveErrorsRef (Live.page cleared) = 3
  /\ consecutiveErrorsRef (initialState None) = 0
  /\ Live.health (Live.after cleared [Live.Settles 0 Live.failed])
     = (4, true, None)
  /\ Live.health Live.started = (0, false, Some POLL_INTERVAL)
  /\ Live.health restarted = (0, true, Some POLL_INTERVAL).
Proof. vm_compute. repeat split. Qed.

(* ================================================================== *)
(** * Further properties of the page *)

(* ------------------------------------------------------------------ *)
(** ** Phases and durations *)

(** X1.  For a progress between 0 and 100 the index that
    [phaseFromProgress] returns names the entry of [PHASES] whose range
    holds that progress: the lower bound is included, the upper one is not,
    but for the last phase, which takes 100.  The index never decreases
    when the progress grows, and lies between 0 and 3 for every progress. *)
Theorem phaseFromProgress_matches_ranges :
  forall p q : Z,
    0 <= p <= 100 -> p <= q ->
    (exists ph,
        nth_error PHASES (Z.to_nat (phaseFromProgress p)) = Some ph
        /\ fst (range ph) <= p <= snd (range ph)
        /\ (p < snd (range ph) \/ phaseFromProgress p = 3))
    /\ phaseFromProgress p <= phaseFromProgress q
    /\ 0 <= phaseFromProgress q <= 3.
Proof.
  intros p q Hp Hpq. unfold phaseFromProgress.
  destruct (Z.ltb_spec p 25); [| destruct (Z.ltb_spec p 70);
                                 [| destruct (Z.ltb_spec p 85)]];
    (split;
     [eexists; split; [reflexivity | cbn; lia]
     | destruct (Z.ltb_spec q 25); [| destruct (Z.ltb_spec q 70);
                                      [| destruct (Z.ltb_spec q 85)]]; lia]).
Qed.

Lemma phaseFromProgress_matches_ranges_witness :
  (exists ph,
      nth_error PHASES (Z.to_nat (phaseFromProgress 70)) = Some ph
      /\ fst (range ph) <= 70 <= snd (range ph)
      /\ (70 < snd (range ph) \/ phaseFromProgress 70 = 3))
  /\ phaseFromProgress 70 <= phaseFromProgress 84
  /\ 0 <= phaseFromProgress 84 <= 3.
Proof. apply (phaseFromProgress_matches_ranges 70 84); lia. Defined.

Lemma padStart_two_digits (n : Z) :
  0 <= n < 100 -> Str.padStart 2 "0" (JS.show n) = twoDigits n.
Proof.
  intros H.
  assert (forallb
            (fun k => (Str.padStart 2 "0" (JS.show (Z.of_nat k))
                       =? twoDigits (Z.of_nat k))%string)
            (seq 0 100) = true) as Hall by (vm_compute; reflexivity).
  rewrite forallb_forall in Hall.
  specialize (Hall (Z.to_nat n)).
  rewrite Z2Nat.id in Hall by lia.
  apply String.eqb_eq, Hall, in_seq. lia.
Qed.

Lemma clock_parts (t : Z) :
  0 <= t ->
  let h := t / 3600 in
  let m := Z.rem t 3600 / 60 in
  let s := Z.rem t 60 in
  h * 3600 + m * 60 + s = t /\ 0 <= h /\ 0 <= m < 60 /\ 0 <= s < 60.
Proof.
  intros Ht h m s. subst h m s.
  rewrite !Z.rem_mod_nonneg by lia.
  pose proof (Z.div_mod t 3600 ltac:(lia)) as E1.
  pose proof (Z.mod_pos_bound t 3600 ltac:(lia)) as B1.
  pose proof (Z.div_mod (t mod 3600) 60 ltac:(lia)) as E2.
  pose proof (Z.mod_pos_bound (t mod 3600) 60 ltac:(lia)) as B2.
  assert (t mod 60 = (t mod 3600) mod 60) as E3.
  { rewrite E1 at 1.
    replace (3600 * (t / 3600) + t mod 3600)
      with (t mod 3600 + 60 * (t / 3600) * 60) by lia.
    apply Z.mod_add. lia. }
  assert (0 <= t / 3600) by (apply Z.div_pos; lia).
  assert (0 <= t mod 3600 / 60 < 60)
    by (split; [apply Z.div_pos; lia | apply Z.div_lt_upper_bound; lia]).
  rewrite E3. repeat split; lia.
Qed.

Lemma formatElapsed_fields (t : Z) :
  0 <= t < 360000 ->
  formatElapsed t
  = (twoDigits (t / 3600) ++ ":" ++ twoDigits (t mod 3600 / 60) ++ ":"
       ++ twoDigits (t mod 60))%string
  /\ (t / 3600) * 3600 + (t mod 3600 / 60) * 60 + t mod 60 = t
  /\ 0 <= t / 3600 < 100 /\ 0 <= t mod 3600 / 60 < 60 /\ 0 <= t mod 60 < 60.
Proof.
  intros Ht.
  destruct (clock_parts t ltac:(lia)) as [Esum [Hh [Hm Hs]]].
  rewrite (Z.rem_mod_nonneg t 60), (Z.rem_mod_nonneg t 3600) in * by lia.
  assert (t / 3600 < 100) by (apply Z.div_lt_upper_bound; lia).
  split; [| repeat split; lia].
  unfold formatElapsed. rewrite !Z.rem_mod_nonneg by lia.
  now rewrite !padStart_two_digits by lia.
Qed.

(** X2.  A duration of less than 100 hours is shown as eight characters,
    HH:MM:SS, each field written with two digits; the minutes and the
    seconds are below 60 and the three fields add up to the duration. *)
Theorem formatElapsed_is_a_clock :
  forall t : Z,
    0 <= t < 360000 ->
    let h := t / 3600 in
    let m := t mod 3600 / 60 in
    let s := t mod 60 in
    formatElapsed t
    = (twoDigits h ++ ":" ++ twoDigits m ++ ":" ++ twoDigits s)%string
    /\ String.length (formatElapsed t) = 8%nat
    /\ h * 3600 + m * 60 + s = t
    /\ 0 <= h < 100 /\ 0 <= m < 60 /\ 0 <= s < 60.
Proof.
  intros t Ht. cbv zeta.
  destruct (formatElapsed_fields t Ht) as [E [Hsum [Hh [Hm Hs]]]].
  split; [exact E |]. split; [rewrite E; reflexivity |].
  repeat split; lia.
Qed.

Lemma formatElapsed_is_a_clock_witness :
  formatElapsed 7384 = "02:03:04"
  /\ String.length (formatElapsed 7384) = 8%nat.
Proof.
  destruct (formatElapsed_is_a_clock 7384 ltac:(lia)) as [E [L _]].
  split; [exact E | exact L].
Defined.

Lemma digit_inj (a b : Z) :
  0 <= a < 10 -> 0 <= b < 10 -> digit a = digit b -> a = b.
Proof.
  intros Ha Hb E. unfold digit in E.
  apply (f_equal nat_of_ascii) in E.
  rewrite !nat_ascii_embedding in E by lia. lia.
Qed.

Lemma twoDigits_inj (a b : Z) :
  0 <= a < 100 -> 0 <= b < 100 -> twoDigits a = twoDigits b -> a = b.
Proof.
  intros Ha Hb E. unfold twoDigits in E. injection E as E1 E0.
  apply digit_inj in E1;
    [| split; [apply Z.div_pos | apply Z.div_lt_upper_bound]; lia
     | split; [apply Z.div_pos | apply Z.div_lt_upper_bound]; lia].
  apply digit_inj in E0; [| apply Z.mod_pos_bound; lia ..].
  rewrite (Z.div_mod a 10), (Z.div_mod b 10) by lia. lia.
Qed.

(** X3.  Two different durations below 100 hours are never shown as the
    same text. *)
Theorem formatElapsed_injective :
  forall t1 t2 : Z,
    0 <= t1 < 360000 -> 0 <= t2 < 360000 ->
    formatElapsed t1 = formatElapsed t2 -> t1 = t2.
Proof.
  intros t1 t2 H1 H2 E.
  destruct (formatElapsed_fields t1 H1) as [E1 [S1 [Bh1 [Bm1 Bs1]]]].
  destruct (formatElapsed_fields t2 H2) as [E2 [S2 [Bh2 [Bm2 Bs2]]]].
  rewrite E1, E2 in E.
  unfold twoDigits in E. cbn [String.append] in E.
  injection E as Eh1 Eh0 Em1 Em0 Es1 Es0.
  assert (t1 / 3600 = t2 / 3600) as Eh
      by (apply twoDigits_inj; [lia | lia | unfold twoDigits; congruence]).
  assert (t1 mod 3600 / 60 = t2 mod 3600 / 60) as Em
      by (apply twoDigits_inj; [lia | lia | unfold twoDigits; congruence]).
  assert (t1 mod 60 = t2 mod 60) as Es
      by (apply twoDigits_inj; [lia | lia | unfold twoDigits; congruence]).
  lia.
Qed.

Lemma formatElapsed_injective_witness : 125 = 60 + 65.
Proof.
  apply (formatElapsed_injective 125 (60 + 65)); [lia | lia | reflexivity].
Defined.

(** X4.  Once the run is over and the completion time is known, the
    elapsed time no longer depends on the clock.  While the run is active
    it never decreases as the clock advances, and it is non-negative as
    soon as the clock is not behind the start time. *)
Theorem elapsed_frozen_then_monotone :
  forall (s : AgentStatus.t) (startTime now1 now2 : Z),
    AgentStatus.started_at s = Some startTime ->
    now1 <= now2 ->
    (forall c, AgentStatus.completed_at s = Some c ->
               elapsedEffect (Some s) false now1
               = elapsedEffect (Some s) false now2)
    /\ (exists v1 v2,
           elapsedEffect (Some s) true now1 = Some v1
           /\ elapsedEffect (Some s) true now2 = Some v2
           /\ v1 <= v2
           /\ (startTime <= now1 -> 0 <= v1)).
Proof.
  intros s startTime now1 now2 Hs Hle. split.
  - intros c Hc. unfold elapsedEffect. now rewrite Hs, Hc.
  - rewrite !(elapsed_running_value s startTime) by exact Hs.
    eexists. eexists. split; [reflexivity |]. split; [reflexivity |].
    split.
    + apply Z.div_le_mono; lia.
    + intros H. apply Z.div_pos; lia.
Qed.

Lemma elapsed_frozen_then_monotone_witness :
  let s := AgentStatus.mk "completed" "report" 100 (Some 1000) (Some 131000)
             None 0 None in
  (forall c, AgentStatus.completed_at s = Some c ->
             elapsedEffect (Some s) false 200000
             = elapsedEffect (Some s) false 900000)
  /\ (exists v1 v2,
         elapsedEffect (Some s) true 200000 = Some v1
         /\ elapsedEffect (Some s) true 900000 = Some v2
         /\ v1 <= v2
         /\ (1000 <= 200000 -> 0 <= v1)).
Proof.
  intros s.
  apply (elapsed_frozen_then_monotone s 1000 200000 900000);
    [reflexivity | lia].
Defined.

(* ------------------------------------------------------------------ *)
(** ** The log viewer *)

Section Strings.

Lemma startsWith_iff (p : string) :
  forall s, Str.startsWith s p = true <-> exists rest, s = (p ++ rest)%string.
Proof.
  induction p as [| a p IH]; intros s; cbn [Str.startsWith].
  - split; [intros _; now exists s | reflexivity].
  - destruct s as [| b s].
    + split; [discriminate | intros [rest H]; discriminate H].
    + rewrite andb_true_iff, Ascii.eqb_eq, IH. split.
      * intros [-> [rest ->]]. now exists rest.
      * intros [rest H]. cbn in H. injection H as -> ->. split; eauto.
Qed.

Lemma includes_iff (sub : string) :
  forall s,
    Str.includes s sub = true
    <-> exists pre post, s = (pre ++ sub ++ post)%string.
Proof.
  induction s as [| c s IH]; cbn [Str.includes]; rewrite orb_true_iff.
  - rewrite startsWith_iff. split.
    + intros [[rest H] | H]; [| discriminate]. now exists ""%string, rest.
    + intros [pre [post H]]. left.
      destruct pre; [now exists post | discriminate].
  - rewrite startsWith_iff, IH. split.
    + intros [[rest H] | [pre [post H]]].
      * now exists ""%string, rest.
      * exists (String c pre), post. cbn. now rewrite H.
    + intros [pre [post H]]. destruct pre as [| d pre].
      * left. now exists post.
      * right. cbn in H. injection H as _ H. now exists pre, post.
Qed.

Lemma toLowerCase_app (a b : string) :
  Str.toLowerCase (a ++ b) = (Str.toLowerCase a ++ Str.toLowerCase b)%string.
Proof. induction a as [| c a IH]; cbn; [reflexivity | now rewrite IH]. Qed.

Lemma toLowerCase_truthy (s : string) :
  JS.truthy (Str.toLowerCase s) = JS.truthy s.
Proof. now destruct s. Qed.

End Strings.

(** X5.  Each of the fourteen tags gets the class written beside it: a
    message that begins with a tag is coloured by that tag, none of the
    tests that come earlier catches it.  A message gets a class only by
    beginning with one of the tags. *)
Theorem log_tags_get_their_class :
  forall (message tag cls : string),
    In (tag, cls) LOG_TAGS ->
    (Str.startsWith message tag = true -> logMessageColor message = cls)
    /\ (logMessageColor message <> "" ->
        exists tag' cls',
          In (tag', cls') LOG_TAGS
          /\ Str.startsWith message tag' = true
          /\ logMessageColor message = cls').
Proof.
  intros message tag cls Hin. split.
  - intros Hs. apply startsWith_iff in Hs. destruct Hs as [rest ->].
    cbn [LOG_TAGS In] in Hin.
    repeat (destruct Hin as [Hin | Hin];
            [injection Hin as <- <-; reflexivity |]).
    contradiction.
  - clear. unfold logMessageColor. intros Hne.
    repeat match goal with
      | H : (if Str.startsWith ?m ?t then ?c else _) <> _ |- _ =>
        destruct (Str.startsWith m t) eqn:?;
          [exists t, c; split; [cbn; tauto | split; [assumption | reflexivity]]
          |]
      end.
    now contradiction Hne.
Qed.

Lemma log_tags_get_their_class_witness :
  logMessageColor "[PHASE FAIL] recon aborted" = "text-red-400".
Proof.
  apply (log_tags_get_their_class "[PHASE FAIL] recon aborted"
           "[PHASE FAIL]" "text-red-400").
  - cbn. tauto.
  - reflexivity.
Defined.

(** X6.  Every line that the "LLM Pentest" filter lets through is drawn in
    the red class: the filter and the colouring test the same tag. *)
Theorem llm_filter_lines_are_red :
  forall (logs : list AgentLog.t) (logSearch : string) (log : AgentLog.t),
    In log (filteredLogs logs "llm" logSearch) ->
    logLineClass log = "text-red-400".
Proof.
  intros logs logSearch log Hin.
  unfold filteredLogs in Hin. apply filter_In in Hin. destruct Hin as [_ H].
  assert (Str.startsWith (AgentLog.message log) "[LLM PENTEST]" = true) as Hs.
  { unfold matchLogFilter in H. cbn [String.eqb Ascii.eqb Bool.eqb] in H.
    destruct (Str.startsWith (AgentLog.message log) "[LLM PENTEST]");
      [reflexivity | discriminate H]. }
  unfold logLineClass, logMessageColor. now rewrite Hs.
Qed.

Lemma llm_filter_lines_are_red_witness :
  let l1 := AgentLog.mk "info" "[LLM PENTEST] probing /login" "agent" in
  let l2 := AgentLog.mk "info" "[TOOL] nmap" "agent" in
  In l1 (filteredLogs [l2; l1] "llm" "LOGIN")
  /\ logLineClass l1 = "text-red-400".
Proof.
  intros l1 l2.
  assert (In l1 (filteredLogs [l2; l1] "llm" "LOGIN")) as Hin
      by (cbn; now left).
  split; [exact Hin |].
  exact (llm_filter_lines_are_red [l2; l1] "LOGIN" l1 Hin).
Defined.

(** X7.  The search of the log viewer does not look at letter case.  For
    messages and search texts made of the characters below U+0100, where
    [toLowerCase] maps character by character: two search texts with the
    same lower-case form select the same lines, and a line that passes the
    filter and whose message contains the search text as typed is among
    the lines shown. *)
Theorem log_search_ignores_case :
  forall (logs : list AgentLog.t) (logFilter s1 s2 : string),
    Str.toLowerCase s1 = Str.toLowerCase s2 ->
    filteredLogs logs logFilter s1 = filteredLogs logs logFilter s2
    /\ (forall log,
           In log logs ->
           matchLogFilter log logFilter = true ->
           Str.includes (AgentLog.message log) s1 = true ->
           In log (filteredLogs logs logFilter s2)).
Proof.
  intros logs logFilter s1 s2 E.
  assert (JS.truthy s1 = JS.truthy s2) as Et
      by (rewrite <- (toLowerCase_truthy s1), <- (toLowerCase_truthy s2);
          now rewrite E).
  split.
  - unfold filteredLogs. apply filter_ext. intros log.
    now rewrite E, Et.
  - intros log Hin Hf Hinc. unfold filteredLogs. apply filter_In.
    split; [exact Hin |]. rewrite Hf. cbn [negb].
    apply includes_iff in Hinc. destruct Hinc as [pre [post Hm]].
    assert (Str.includes (Str.toLowerCase (AgentLog.message log))
              (Str.toLowerCase s2) = true) as ->.
    { apply includes_iff.
      exists (Str.toLowerCase pre), (Str.toLowerCase post).
      now rewrite Hm, !toLowerCase_app, E. }
    now rewrite andb_false_r.
Qed.

Lemma log_search_ignores_case_witness :
  let l1 := AgentLog.mk "info" "[LLM PENTEST] probing /Login" "agent" in
  let l2 := AgentLog.mk "info" "[TOOL] nmap" "agent" in
  filteredLogs [l2; l1] "all" "Login" = filteredLogs [l2; l1] "all" "LOGIN"
  /\ In l1 (filteredLogs [l2; l1] "all" "LOGIN").
Proof.
  intros l1 l2.
  destruct (log_search_ignores_case [l2; l1] "all" "Login" "LOGIN" eq_refl)
    as [E H].
  split; [exact E |].
  apply (H l1); [cbn; tauto | reflexivity | reflexivity].
Defined.

(* ------------------------------------------------------------------ *)
(** ** Confidence, severities, models *)

Lemma geq_atLeast (s : Confidence.Score) (n : Q) :
  Confidence.geq s n = true <-> Confidence.atLeast n s.
Proof.
  destruct s as [[q | | |] | k]; cbn [Confidence.geq Confidence.atLeast];
    try (split; [discriminate | contradiction]); [| tauto].
  apply Qle_bool_iff.
Qed.

(** X8.  Whenever [getConfidenceDisplay] shows something, colour and label
    agree and follow the two comparisons of the score: green and
    "Confirmed" when the score is at least 90, yellow and "Likely" when it
    is at least 60 and not at least 90, red and "Low" in every other case.
    The other cases are the numbers below 60 and the scores at which both
    comparisons are false without being small: [NaN], and the member of
    [Object.prototype] that the word table yields under an inherited key.
    A [confidence_score] of type number is the score shown, whatever the
    textual confidence says. *)
Theorem confidence_colour_and_label_agree :
  forall (Number : string -> Confidence.Num)
         (confidence_score : option Confidence.Num)
         (confidence : option string) (d : Confidence.Display),
    Confidence.getConfidenceDisplay Number confidence_score confidence
    = Some d ->
    (Confidence.atLeast (90 # 1) (Confidence.score d)
     /\ Confidence.color d = "green" /\ Confidence.label d = "Confirmed"
     \/ Confidence.atLeast (60 # 1) (Confidence.score d)
        /\ ~ Confidence.atLeast (90 # 1) (Confidence.score d)
        /\ Confidence.color d = "yellow" /\ Confidence.label d = "Likely"
     \/ ~ Confidence.atLeast (60 # 1) (Confidence.score d)
        /\ Confidence.color d = "red" /\ Confidence.label d = "Low")
    /\ (forall n,
           confidence_score = Some n ->
           Confidence.score d = Confidence.ScoreNum n).
Proof.
  intros Number cs c d H. unfold Confidence.getConfidenceDisplay in H.
  destruct (Confidence.confidenceScore Number cs c) as [sc |] eqn:Esc;
    [| discriminate].
  injection H as <-. cbn [Confidence.score Confidence.color Confidence.label].
  split.
  - pose proof (geq_atLeast sc (90 # 1)) as H90.
    pose proof (geq_atLeast sc (60 # 1)) as H60.
    destruct (Confidence.geq sc (90 # 1)).
    + left. split; [now apply H90 | auto].
    + assert (~ Confidence.atLeast (90 # 1) sc) as N90
          by (intros Hge; apply H90 in Hge; discriminate).
      destruct (Confidence.geq sc (60 # 1)).
      * right. left. split; [now apply H60 | auto].
      * right. right. split; [| auto].
        intros Hge. apply H60 in Hge. discriminate.
  - intros n ->. cbn in Esc. congruence.
Qed.

Lemma confidence_colour_and_label_agree_witness :
  let d :=
    Confidence.mkDisplay (Confidence.ScoreNum (Confidence.Finite (87 # 1)))
      "yellow" "Likely" in
  Confidence.atLeast (60 # 1) (Confidence.score d)
  /\ Confidence.label d = "Likely".
Proof.
  intros d.
  destruct (confidence_colour_and_label_agree (fun _ => Confidence.NaN)
              (Some (Confidence.Finite (87 # 1))) (Some "high") d eq_refl)
    as [H _].
  destruct H as [[H _] | [[H [_ [_ L]]] | [H _]]].
  - exfalso. revert H. cbn. unfold Qle. cbn. lia.
  - split; [exact H | exact L].
  - exfalso. apply H. cbn. unfold Qle. cbn. lia.
Defined.

(** X9.  A textual confidence that [Number] does not read as a number:
    spelling "high", "medium" or "low" in any letter case it is shown as
    90 "Confirmed", 60 "Likely", 30 "Low".  A word whose lower-case form
    is a property name inherited from [Object.prototype] ("constructor",
    "__proto__") is shown too: red and "Low", with the inherited member
    as its score.  Every other word shows nothing. *)
Theorem confidence_words :
  forall (Number : string -> Confidence.Num) (c : string),
    Number c = Confidence.NaN -> c <> "" ->
    let shown := Confidence.getConfidenceDisplay Number None (Some c) in
    let number q := Confidence.ScoreNum (Confidence.Finite q) in
    (Str.toLowerCase c = "high" ->
     shown = Some (Confidence.mkDisplay (number (90 # 1)) "green" "Confirmed"))
    /\ (Str.toLowerCase c = "medium" ->
        shown = Some (Confidence.mkDisplay (number (60 # 1)) "yellow" "Likely"))
    /\ (Str.toLowerCase c = "low" ->
        shown = Some (Confidence.mkDisplay (number (30 # 1)) "red" "Low"))
    /\ (In (Str.toLowerCase c) inheritedKeys ->
        shown
        = Some (Confidence.mkDisplay
                  (Confidence.ScoreInherited (Str.toLowerCase c)) "red" "Low"))
    /\ (Str.toLowerCase c <> "high" -> Str.toLowerCase c <> "medium" ->
        Str.toLowerCase c <> "low" ->
        ~ In (Str.toLowerCase c) inheritedKeys -> shown = None).
Proof.
  intros Number c Hn Hc shown number. subst shown number.
  unfold Confidence.getConfidenceDisplay, Confidence.confidenceScore.
  assert (JS.truthy c = true) as -> by (destruct c; [contradiction | reflexivity]).
  rewrite Hn. cbn [Confidence.isNaN negb]. unfold Confidence.confidenceMap.
  split; [| split; [| split; [| split]]].
  - intros ->. reflexivity.
  - intros ->. reflexivity.
  - intros ->. reflexivity.
  - intros Hin.
    assert (existsb (String.eqb (Str.toLowerCase c)) inheritedKeys = true)
      as Hex.
    { apply existsb_exists. exists (Str.toLowerCase c).
      split; [exact Hin | apply String.eqb_refl]. }
    assert ((Str.toLowerCase c =? "high")%string = false
            /\ (Str.toLowerCase c =? "medium")%string = false
            /\ (Str.toLowerCase c =? "low")%string = false) as [E1 [E2 E3]].
    { cbn [In inheritedKeys] in Hin.
      repeat (destruct Hin as [<- | Hin]; [now repeat split |]).
      contradiction. }
    now rewrite E1, E2, E3, Hex.
  - intros H1 H2 H3 Hnot.
    apply String.eqb_neq in H1, H2, H3. rewrite H1, H2, H3.
    destruct (existsb (String.eqb (Str.toLowerCase c)) inheritedKeys) eqn:Hex;
      [| reflexivity].
    exfalso. apply Hnot. apply existsb_exists in Hex.
    destruct Hex as [k [Hk Ek]]. apply String.eqb_eq in Ek. now subst k.
Qed.

Lemma confidence_words_witness :
  let Number := fun _ : string => Confidence.NaN in
  Confidence.getConfidenceDisplay Number None (Some "High")
  = Some (Confidence.mkDisplay (Confidence.ScoreNum (Confidence.Finite (90 # 1)))
            "green" "Confirmed")
  /\ Confidence.getConfidenceDisplay Number None (Some "Constructor")
     = Some (Confidence.mkDisplay (Confidence.ScoreInherited "constructor")
               "red" "Low").
Proof.
  intros Number. split.
  - apply (confidence_words Number "High" eq_refl).
    + discriminate.
    + reflexivity.
  - apply (confidence_words Number "Constructor" eq_refl).
    + discriminate.
    + cbn. tauto.
Defined.

Section Severities.

Lemma Obj_get_set (o : Obj.t) (k k' : string) (v : Z) :
  Obj.get (Obj.set k v o) k'
  = if (k =? k')%string then Some v else Obj.get o k'.
Proof.
  induction o as [| [k0 v0] o IH]; cbn [Obj.set Obj.get].
  - reflexivity.
  - destruct (String.eqb_spec k0 k) as [-> | Hk0].
    + cbn [Obj.get]. now destruct (k =? k')%string.
    + cbn [Obj.get]. rewrite IH.
      destruct (String.eqb_spec k0 k') as [-> | Hk0'].
      * destruct (String.eqb_spec k k'); [congruence | reflexivity].
      * reflexivity.
Qed.

Lemma sevCounts_fold (findings : list AgentFinding.t) (sev : string) :
  forall acc : Obj.t,
    orZero
      (Obj.get
         (fold_left
            (fun acc f =>
               Obj.set (AgentFinding.severity f)
                 (orZero (Obj.get acc (AgentFinding.severity f)) + 1) acc)
            findings acc) sev)
    = orZero (Obj.get acc sev) + countSeverity sev findings.
Proof.
  unfold countSeverity.
  induction findings as [| f fs IH]; intros acc; cbn [fold_left filter].
  - cbn. lia.
  - rewrite IH, Obj_get_set.
    destruct (String.eqb_spec (AgentFinding.severity f) sev) as [-> | Hne].
    + cbn [orZero List.length]. lia.
    + lia.
Qed.

Lemma sevCounts_get (findings : list AgentFinding.t) (sev : string) :
  orZero (Obj.get (sevCounts findings) sev) = countSeverity sev findings.
Proof. unfold sevCounts. now rewrite sevCounts_fold. Qed.

Lemma countSeverity_nonneg (sev : string) (fs : list AgentFinding.t) :
  0 <= countSeverity sev fs.
Proof. unfold countSeverity. lia. Qed.

Lemma countSeverity_cons (sev : string) (f : AgentFinding.t)
    (fs : list AgentFinding.t) :
  countSeverity sev (f :: fs)
  = (if (AgentFinding.severity f =? sev)%string then 1 else 0)
    + countSeverity sev fs.
Proof.
  unfold countSeverity. cbn [filter].
  destruct (AgentFinding.severity f =? sev)%string; cbn [List.length]; lia.
Qed.

Lemma total_pos (l : list (string * Z)) :
  (forall p, In p l -> 0 < snd p) -> l <> [] -> 0 < total l.
Proof.
  unfold total. intros Hpos Hne.
  assert (0 <= fold_right (fun p acc => snd p + acc) 0 l
          /\ (l <> [] -> 0 < fold_right (fun p acc => snd p + acc) 0 l)) as H.
  { clear Hne. induction l as [| p l IH]; cbn [fold_right].
    - split; [lia | congruence].
    - assert (0 < snd p) by (apply Hpos; now left).
      destruct IH as [IH _]; [intros q Hq; apply Hpos; now right |].
      split; intros; lia. }
  now apply H.
Qed.

End Severities.

(** X10.  For every severity that is not a property name inherited from
    [Object.prototype], the count that [sevCounts] holds for it (0 when
    the key is absent) is the number of findings of that severity, and
    the key is absent exactly when there is no such finding.  (Under an
    inherited name such as "constructor" the object already has a member
    before any finding is counted; the five severities of the chart are
    not among these names.) *)
Theorem sevCounts_counts_findings :
  forall (findings : list AgentFinding.t) (sev : string),
    ~ In sev inheritedKeys ->
    orZero (Obj.get (sevCounts findings) sev) = countSeverity sev findings
    /\ (Obj.get (sevCounts findings) sev = None
        <-> countSeverity sev findings = 0).
Proof.
  intros findings sev _.
  assert (orZero (Obj.get (sevCounts findings) sev)
          = countSeverity sev findings) as E
      by (unfold sevCounts; now rewrite sevCounts_fold).
  split; [exact E |]. split.
  - intros H. rewrite H in E. now rewrite <- E.
  - intros H0. unfold sevCounts.
    assert (forall acc : Obj.t,
               Obj.get acc sev = None ->
               Obj.get
                 (fold_left
                    (fun acc f =>
                       Obj.set (AgentFinding.severity f)
                         (orZero (Obj.get acc (AgentFinding.severity f)) + 1)
                         acc) findings acc) sev = None) as Hgen.
    { clear E. revert H0.
      induction findings as [| f fs IH]; intros H0 acc Hacc;
        cbn [fold_left]; [exact Hacc |].
      rewrite countSeverity_cons in H0.
      pose proof (countSeverity_nonneg sev fs).
      destruct (String.eqb_spec (AgentFinding.severity f) sev) as [Heq | Hne];
        [lia |].
      apply IH; [lia |]. rewrite Obj_get_set.
      destruct (String.eqb_spec (AgentFinding.severity f) sev);
        [contradiction | exact Hacc]. }
    now apply Hgen.
Qed.

Lemma sevCounts_counts_findings_witness :
  let findings :=
    [AgentFinding.mk "f1" "high" "SQL injection";
     AgentFinding.mk "f2" "low" "Verbose banner";
     AgentFinding.mk "f3" "high" "Stored XSS"] in
  ~ In "high" inheritedKeys
  /\ Obj.get (sevCounts findings) "high" = Some 2
  /\ countSeverity "high" findings = 2
  /\ Obj.get (sevCounts findings) "medium" = None.
Proof.
  intros findings.
  assert (forall sev, existsb (String.eqb sev) inheritedKeys = false ->
                      ~ In sev inheritedKeys) as Hnot.
  { intros sev E Hin.
    assert (existsb (String.eqb sev) inheritedKeys = true) as E'
        by (apply existsb_exists; exists sev;
            split; [exact Hin | apply String.eqb_refl]).
    congruence. }
  destruct (sevCounts_counts_findings findings "high" (Hnot "high" eq_refl))
    as [Ehigh _].
  destruct (sevCounts_counts_findings findings "medium"
              (Hnot "medium" eq_refl)) as [_ [_ Hmedium]].
  split; [exact (Hnot "high" eq_refl) |].
  split; [reflexivity |].
  split; [rewrite <- Ehigh; reflexivity |].
  apply Hmedium. reflexivity.
Defined.

Lemma chart_slice (findings : list AgentFinding.t) (l : list string) :
  total
    (map (fun s => (s, orZero (Obj.get (sevCounts findings) s)))
       (filter (fun s => 0 <? orZero (Obj.get (sevCounts findings) s)) l))
  = fold_right (fun s acc => countSeverity s findings + acc) 0 l.
Proof.
  unfold total.
  induction l as [| s l IH]; cbn [filter]; [reflexivity |].
  pose proof (sevCounts_get findings s) as E.
  pose proof (countSeverity_nonneg s findings).
  destruct (Z.ltb_spec 0 (orZero (Obj.get (sevCounts findings) s)));
    cbn [map fold_right snd]; rewrite IH; lia.
Qed.

Lemma known_total (fs : list AgentFinding.t) :
  fold_right (fun s acc => countSeverity s fs + acc) 0 SEVERITIES
  = Z.of_nat (List.length (filter knownSeverity fs)).
Proof.
  induction fs as [| f fs IH].
  - reflexivity.
  - cbn [SEVERITIES fold_right] in *. rewrite !countSeverity_cons.
    cbn [filter]. unfold knownSeverity at 1. cbn [SEVERITIES existsb].
    destruct (String.eqb_spec (AgentFinding.severity f) "critical") as [E | _];
      [rewrite ?E; cbn [String.eqb Ascii.eqb Bool.eqb orb List.length]; lia |].
    destruct (String.eqb_spec (AgentFinding.severity f) "high") as [E | _];
      [rewrite ?E; cbn [String.eqb Ascii.eqb Bool.eqb orb List.length]; lia |].
    destruct (String.eqb_spec (AgentFinding.severity f) "medium") as [E | _];
      [rewrite ?E; cbn [String.eqb Ascii.eqb Bool.eqb orb List.length]; lia |].
    destruct (String.eqb_spec (AgentFinding.severity f) "low") as [E | _];
      [rewrite ?E; cbn [String.eqb Ascii.eqb Bool.eqb orb List.length]; lia |].
    destruct (String.eqb_spec (AgentFinding.severity f) "info") as [E | _];
      [rewrite ?E; cbn [String.eqb Ascii.eqb Bool.eqb orb List.length]; lia |].
    cbn [orb]. lia.
Qed.

(** X11.  The slices of the severity chart carry positive values only,
    and together they count exactly the findings whose severity is one of
    critical, high, medium, low and info: all the findings, when every
    finding has one of these severities.  There is no slice (the chart is
    not drawn) exactly when no finding has one of them. *)
Theorem chart_slices_add_up :
  forall findings : list AgentFinding.t,
    let data := chartData (sevCounts findings) in
    total data = Z.of_nat (List.length (filter knownSeverity findings))
    /\ (forall name value, In (name, value) data ->
                           0 < value /\ In name SEVERITIES
                           /\ value = countSeverity name findings)
    /\ (data = [] <-> filter knownSeverity findings = [])
    /\ (forallb knownSeverity findings = true ->
        total data = Z.of_nat (List.length findings)).
Proof.
  intros findings data. subst data. unfold chartData.
  assert (total
            (map (fun s => (s, orZero (Obj.get (sevCounts findings) s)))
               (filter
                  (fun s => 0 <? orZero (Obj.get (sevCounts findings) s))
                  SEVERITIES))
          = Z.of_nat (List.length (filter knownSeverity findings))) as Etot
      by (rewrite chart_slice; apply known_total).
  assert (forall name value,
             In (name, value)
               (map (fun s => (s, orZero (Obj.get (sevCounts findings) s)))
                  (filter
                     (fun s => 0 <? orZero (Obj.get (sevCounts findings) s))
                     SEVERITIES)) ->
             0 < value /\ In name SEVERITIES
             /\ value = countSeverity name findings) as Hpos.
  { intros name value Hin. apply in_map_iff in Hin.
    destruct Hin as [s [Hs Hin]]. injection Hs as <- <-.
    apply filter_In in Hin. destruct Hin as [Hin Hgt].
    apply Z.ltb_lt in Hgt.
    pose proof (sevCounts_get findings s) as E.
    repeat split; [exact Hgt | exact Hin | exact E]. }
  split; [exact Etot |]. split; [exact Hpos |]. split.
  - split.
    + intros E. rewrite E in Etot. cbn in Etot.
      destruct (filter knownSeverity findings); [reflexivity | cbn in Etot; lia].
    + intros E. rewrite E in Etot. cbn [List.length] in Etot.
      destruct (map _ _) as [| [n v] r] eqn:Em; [reflexivity |].
      exfalso.
      assert (0 < total ((n, v) :: r)) as Hgt.
      { apply total_pos; [| discriminate].
        intros [a b] Hab. cbn [snd]. now apply (Hpos a b). }
      lia.
  - intros Hall. rewrite Etot. f_equal. f_equal.
    rewrite forallb_forall in Hall. clear -Hall.
    induction findings as [| f fs IH]; [reflexivity |].
    cbn [filter]. rewrite (Hall f) by now left.
    f_equal. apply IH. intros x Hx. apply Hall. now right.
Qed.

Lemma chart_slices_add_up_witness :
  let findings :=
    [AgentFinding.mk "f1" "high" "SQL injection";
     AgentFinding.mk "f2" "low" "Verbose banner";
     AgentFinding.mk "f3" "high" "Stored XSS"] in
  chartData (sevCounts findings) = [("high", 2); ("low", 1)]
  /\ total (chartData (sevCounts findings)) = Z.of_nat (List.length findings).
Proof.
  intros findings. split; [reflexivity |].
  destruct (chart_slices_add_up findings) as [_ [_ [_ H]]].
  apply H. reflexivity.
Defined.

Section ModelList.

Lemma indexOfFrom_lower (a : list string) (v : string) :
  forall i, indexOfFrom i a v = -1 \/ i <= indexOfFrom i a v.
Proof.
  induction a as [| x a IH]; intros i; cbn [indexOfFrom]; [now left |].
  destruct (x =? v)%string; [right; lia |].
  destruct (IH (i + 1)); [now left | right; lia].
Qed.

(** The first index of [v] in [pre ++ v :: r], counted from [i], is past
    [pre] exactly when [v] is not in [pre]. *)
Lemma indexOfFrom_split (pre r : list string) (v : string) :
  forall i,
    0 <= i ->
    (indexOfFrom i (pre ++ v :: r) v = i + Z.of_nat (List.length pre)
     <-> ~ In v pre).
Proof.
  induction pre as [| x pre IH]; intros i Hi; cbn [app indexOfFrom List.length].
  - rewrite String.eqb_refl. cbn. split; [tauto | lia].
  - destruct (String.eqb_spec x v) as [-> | Hne].
    + split; [lia | intros H; exfalso; apply H; now left].
    + replace (i + Z.of_nat (S (List.length pre)))
        with (i + 1 + Z.of_nat (List.length pre)) by lia.
      rewrite (IH (i + 1)) by lia. cbn [In]. tauto.
Qed.

Lemma filterIdx_first (l : list string) :
  forall pre : list string,
    let kept :=
      filterIdx (fun v i => indexOf (pre ++ l) v =? i)
        (Z.of_nat (List.length pre)) l in
    NoDup kept
    /\ forall v, In v kept <-> In v l /\ ~ In v pre.
Proof.
  induction l as [| x l IH]; intros pre kept; subst kept; cbn [filterIdx].
  - split; [constructor | intros v; cbn; tauto].
  - specialize (IH (pre ++ [x])%list). cbv zeta in IH.
    rewrite <- app_assoc, length_app in IH. cbn [app List.length] in IH.
    replace (Z.of_nat (List.length pre + 1))
      with (Z.of_nat (List.length pre) + 1) in IH by lia.
    destruct IH as [Hnd Hin].
    pose proof (indexOfFrom_split pre l x 0 ltac:(lia)) as Hfirst.
    fold (indexOf (pre ++ x :: l) x) in Hfirst. rewrite Z.add_0_l in Hfirst.
    destruct (Z.eqb_spec (indexOf (pre ++ x :: l) x)
                (Z.of_nat (List.length pre))) as [E | E].
    + apply Hfirst in E. split.
      * constructor; [| exact Hnd].
        rewrite Hin. intros [_ H]. apply H, in_or_app. right. now left.
      * intros v. cbn [In]. rewrite Hin. split.
        -- intros [<- | [Hl Hp]]; [tauto |].
           split; [tauto |]. intros H. apply Hp, in_or_app. now left.
        -- intros [[<- | Hl] Hp]; [now left |].
           destruct (String.eqb_spec x v) as [-> | Hne]; [now left |].
           right. split; [exact Hl |].
           intros H. apply in_app_or in H. destruct H as [H | [H | []]];
             [now apply Hp | now apply Hne].
    + assert (In x pre) as Hx.
      { destruct (in_dec string_dec x pre) as [H | H]; [exact H |].
        exfalso. apply E. now apply Hfirst. }
      split; [exact Hnd |].
      intros v. rewrite Hin. cbn [In]. split.
      * intros [Hl Hp]. split; [tauto |].
        intros H. apply Hp, in_or_app. now left.
      * intros [[<- | Hl] Hp]; [contradiction |].
        split; [exact Hl |].
        intros H. apply in_app_or in H. destruct H as [H | [<- | []]];
          [now apply Hp | now apply Hp].
Qed.

End ModelList.

(** X12.  With no provider selected, the model selector offers every
    model that some provider lists, each one once.  With a provider
    selected it offers that provider's list as it is, and nothing when the
    provider is unknown. *)
Theorem model_options_have_no_duplicates :
  forall (availableModels : list Provider),
    NoDup (modelOptions availableModels "")
    /\ (forall model,
           In model (modelOptions availableModels "")
           <-> exists m, In m availableModels /\ In model (available_models m))
    /\ (forall selected,
           selected <> "" ->
           (forall m, In m availableModels -> provider_id m <> selected) ->
           modelOptions availableModels selected = []).
Proof.
  intros availableModels. unfold modelOptions. cbn [JS.truthy String.eqb negb].
  destruct (filterIdx_first (flat_map available_models availableModels) [])
    as [Hnd Hin].
  cbn [app List.length Z.of_nat] in Hnd, Hin.
  split; [exact Hnd |]. split.
  - intros model. unfold uniqueByIndex. rewrite Hin, in_flat_map. cbn [In].
    tauto.
  - intros selected Hsel Hno.
    assert (JS.truthy selected = true) as ->
        by (destruct selected; [contradiction | reflexivity]).
    destruct (find _ availableModels) as [m |] eqn:Ef; [| reflexivity].
    apply find_some in Ef. destruct Ef as [Hm Heq].
    apply String.eqb_eq in Heq. exfalso. now apply (Hno m).
Qed.

Lemma model_options_have_no_duplicates_witness :
  let ps :=
    [mkProvider "anthropic" "Anthropic" "m-large" 1 ["m-large"; "m-small"];
     mkProvider "gateway" "Gateway" "m-small" 2 ["m-small"; "m-large"; "x-1"]] in
  modelOptions ps "" = ["m-large"; "m-small"; "x-1"]
  /\ NoDup (modelOptions ps "")
  /\ modelOptions ps "elsewhere" = [].
Proof.
  intros ps. split; [reflexivity |].
  destruct (model_options_have_no_duplicates ps) as [Hnd [_ Hnone]].
  split; [exact Hnd |].
  apply Hnone; [discriminate |].
  intros m [<- | [<- | []]]; discriminate.
Defined.

(* ------------------------------------------------------------------ *)
(** ** The phase indicators *)

Lemma pollOk_view (f : Fetch) (st : State) :
  status (pollOk f st) = Some (f_status f)
  /\ isRunning (pollOk f st)
     = ((AgentStatus.status (f_status f) =? "running")
        || (AgentStatus.status (f_status f) =? "paused"))%string
  /\ agentId (pollOk f st) = agentId st
  /\ pollRef (pollOk f st) = pollRef st
  /\ logs (pollOk f st) = logs st
  /\ error (pollOk f st) = error st.
Proof. unfold pollOk, poll_resolved. state_simpl. repeat split. Qed.

(** X13.  After a successful status fetch the phase indicators are
    consistent: a phase drawn as active is the one the progress falls in
    and is not drawn as done, and every phase before it is drawn as done;
    when the status is completed or stopped no phase is active and all are
    done. *)
Theorem phase_indicators_after_poll :
  forall (f : Fetch) (st : State) (idx : Z),
    let st' := pollOk f st in
    let s := f_status f in
    status st' = Some s
    /\ (phaseIsActive idx s (isRunning st') = true ->
        idx = phaseFromProgress (AgentStatus.progress s)
        /\ phaseIsDone idx s = false
        /\ forall before, before < idx -> phaseIsDone before s = true)
    /\ (AgentStatus.status s = "completed" \/ AgentStatus.status s = "stopped" ->
        phaseIsActive idx s (isRunning st') = false
        /\ phaseIsDone idx s = true).
Proof.
  intros f st idx st' s.
  destruct (pollOk_view f st) as [Es [Er _]]. fold st' s in Es, Er.
  split; [exact Es |].
  unfold phaseIsActive, phaseIsDone, currentPhaseIdx. rewrite Er. split.
  - intros H. apply andb_true_iff in H. destruct H as [Hidx Hrun].
    apply Z.eqb_eq in Hidx.
    assert ((AgentStatus.status s =? "completed")%string = false
            /\ (AgentStatus.status s =? "stopped")%string = false) as [Hc Hs].
    { apply orb_true_iff in Hrun.
      destruct Hrun as [H | H]; apply String.eqb_eq in H; rewrite H;
        split; reflexivity. }
    split; [exact Hidx |]. rewrite Hc, Hs, !orb_false_r. split.
    + apply Z.ltb_ge. lia.
    + intros before Hb. rewrite !orb_false_r. apply Z.ltb_lt. lia.
  - intros [H | H]; rewrite H; cbn [String.eqb Ascii.eqb Bool.eqb orb];
      rewrite ?andb_false_r, ?orb_true_r; split; reflexivity.
Qed.

Lemma phase_indicators_after_poll_witness :
  let s :=
    AgentStatus.mk "running" "testing" 40 (Some 1000) None None 0 None in
  let f' := mkFetch (mkClosure "agent-1" false) Sample.envs s in
  phaseIsActive 1 s (isRunning (pollOk f' Sample.started)) = true
  /\ phaseIsDone 1 s = false
  /\ phaseIsDone 0 s = true.
Proof.
  intros s f'.
  destruct (phase_indicators_after_poll f' Sample.started 1) as [_ [H _]].
  cbv zeta in H. destruct (H eq_refl) as [_ [Hd Hb]].
  split; [reflexivity |]. split; [exact Hd |]. apply Hb. lia.
Defined.

(* ------------------------------------------------------------------ *)
(** ** More on the toast queue *)

Section LastOnes.

Variable A : Type.

Lemma slice_neg (n : nat) (l : list A) :
  JS.slice (- Z.of_nat (S n)) l = skipn (List.length l - S n) l.
Proof.
  unfold JS.slice.
  replace (- Z.of_nat (S n) <? 0) with true by (symmetry; apply Z.ltb_lt; lia).
  f_equal. lia.
Qed.

(** Keeping the last [n] of a list that was cut to its last [n] before
    more was appended is keeping the last [n] of the whole. *)
Lemma last_of_last (n : nat) (l r : list A) :
  skipn (List.length (skipn (List.length l - n) l ++ r) - n)
    (skipn (List.length l - n) l ++ r)
  = skipn (List.length (l ++ r) - n) (l ++ r).
Proof.
  rewrite !length_app, length_skipn, !skipn_app, length_skipn, skipn_skipn.
  destruct (Nat.le_gt_cases (List.length l) n) as [Hl | Hl].
  - replace (List.length l - n)%nat with 0%nat by lia.
    rewrite Nat.sub_0_r, Nat.add_0_r. reflexivity.
  - replace (List.length l - (List.length l - n))%nat with n by lia.
    f_equal; f_equal; lia.
Qed.

End LastOnes.

Lemma addToast_last_five e m sev (q : list Toast.t) :
  addToast e m sev q = JS.slice (-5) (q ++ [newToast e m sev]).
Proof.
  unfold addToast, MAX_TOASTS.
  change (- (5 - 1)) with (- Z.of_nat 4). change (-5) with (- Z.of_nat 5).
  rewrite !slice_neg, skipn_app, length_app. cbn [List.length].
  destruct (Nat.le_gt_cases (List.length q) 4) as [H | H].
  - replace (List.length q - 4)%nat with 0%nat by lia.
    replace (List.length q + 1 - 5)%nat with 0%nat by lia. reflexivity.
  - replace (List.length q + 1 - 5 - List.length q)%nat with 0%nat by lia.
    cbn [skipn]. f_equal. f_equal. lia.
Qed.

(** X14.  A row of notifications pushed in one go leaves in the queue the
    five most recent toasts of the old queue followed by the new ones: when
    one snapshot raises more than five toasts, only the last five of them
    remain, and a phase or status toast raised before them is gone. *)
Theorem burst_keeps_last_five :
  forall (envs : nat -> Env) (calls : list ToastCall) (k : nat)
         (q : list Toast.t),
    (List.length q <= 5)%nat ->
    addToasts envs k calls q = JS.slice (-5) (q ++ toastsOf envs k calls).
Proof.
  intros envs calls. induction calls as [| [m sev] calls IH]; intros k q Hq.
  - cbn [addToasts toastsOf]. rewrite app_nil_r.
    change (-5) with (- Z.of_nat 5). rewrite slice_neg.
    now replace (List.length q - 5)%nat with 0%nat by lia.
  - cbn [addToasts toastsOf]. rewrite IH by apply addToast_length.
    rewrite addToast_last_five.
    change (-5) with (- Z.of_nat 5). rewrite !slice_neg.
    rewrite last_of_last, <- app_assoc. reflexivity.
Qed.

Lemma burst_keeps_last_five_witness :
  let s := Sample.snapshot "running" "testing"
             ["a"; "b"; "c"; "d"; "e"; "f"; "g"] in
  let st := pollOk (Sample.fetch "running" "recon" ["a"]) Sample.started in
  map Toast.message (toasts (pollOk (mkFetch (mkClosure "agent-1" false)
                                       Sample.envs s) st))
  = ["HIGH: Issue c"; "HIGH: Issue d"; "HIGH: Issue e"; "HIGH: Issue f";
     "HIGH: Issue g"].
Proof.
  intros s st. rewrite pollOk_toasts. cbn [f_envs f_status].
  rewrite (burst_keeps_last_five Sample.envs (pollToasts st s) 0 (toasts st))
    by (vm_compute; lia).
  reflexivity.
Defined.

(** X15.  When the expiry timer of a toast fires (or the toast is
    dismissed) right after it was pushed, and no other toast carries its
    identifier, the queue is the old one cut to its last four.  Dismissing
    an identifier that no toast carries changes nothing. *)
Theorem expiry_removes_the_toast :
  forall (e : Env) (m sev : string) (q : list Toast.t),
    (forall t, In t q -> Toast.id t <> Toast.id (newToast e m sev)) ->
    dismissToast (Toast.id (newToast e m sev)) (addToast e m sev q)
    = JS.slice (- (MAX_TOASTS - 1)) q
    /\ dismissToast (Toast.id (newToast e m sev)) q = q.
Proof.
  intros e m sev q Hfresh.
  assert (forall l : list Toast.t,
             (forall t, In t l -> Toast.id t <> Toast.id (newToast e m sev)) ->
             dismissToast (Toast.id (newToast e m sev)) l = l) as Hid.
  { intros l Hl. unfold dismissToast.
    induction l as [| t l IH]; cbn [filter]; [reflexivity |].
    destruct (String.eqb_spec (Toast.id t) (Toast.id (newToast e m sev)))
      as [E | _].
    - exfalso. apply (Hl t); [now left | exact E].
    - cbn [negb]. f_equal. apply IH. intros t' Ht'. apply Hl. now right. }
  split; [| now apply Hid].
  unfold addToast, dismissToast. rewrite filter_app. cbn [filter].
  rewrite String.eqb_refl. cbn [negb]. rewrite app_nil_r.
  apply Hid. intros t Ht. apply Hfresh.
  unfold JS.slice in Ht.
  match type of Ht with
  | In _ (skipn ?n _) => rewrite <- (firstn_skipn n q)
  end.
  apply in_or_app. now right.
Qed.

Lemma expiry_removes_the_toast_witness :
  let q := toasts Sample.started in
  let e := mkEnv 1700000009000 "zz9a" 1700000009000 in
  dismissToast (Toast.id (newToast e "Phase: testing" "info"))
    (addToast e "Phase: testing" "info" q) = q.
Proof.
  intros q e.
  destruct (expiry_removes_the_toast e "Phase: testing" "info" q) as [H _].
  - intros t [<- | []]. discriminate.
  - exact H.
Defined.

(* ------------------------------------------------------------------ *)
(** ** Sessions across reloads *)

(** A render changes nothing but the live interval. *)
Lemma commit_frame (old new : State) :
  exists p, fst (commit old new) = set_pollRef p new.
Proof.
  unfold commit. destruct (sameDeps old new).
  - exists (pollRef new). cbn [fst]. symmetry. apply set_pollRef_same.
  - unfold pollingEffect, pollingCleanup.
    destruct (JS.otruthy (agentId old)); state_simpl;
      destruct (agentId new) as [a |]; try destruct (JS.truthy a);
      cbn [fst]; eexists; try (destruct new; reflexivity).
    all: symmetry; apply set_pollRef_same.
Qed.

Lemma startSettled_persists (st : State) (e : Env) (t0 : Z) (agent_id : string) :
  let st' := fst (step st (StartSettled e t0 (Resolved agent_id))) in
  localStorage st'
  = Some (Session.mk agent_id (JS.trim (target st)) t0 "running")
  /\ isRunning st' = true
  /\ agentId st' = Some agent_id
  /\ toasts st' = addToast e "Full LLM Pentest started" "info" (toasts st).
Proof.
  cbn [step]. unfold andThenCommit. cbn [fst snd].
  destruct (commit_frame st
              (handleStart_settled e t0 (JS.trim (target st))
                 (Resolved agent_id) st)) as [p Ep].
  destruct (commit st _) as [st' out]. cbn [fst] in *. subst st'.
  unfold handleStart_settled. state_simpl. repeat split.
Qed.

(** X16.  A run that was started survives a reload of the page: the
    record written at the start holds the agent identifier, the trimmed
    target and the status "running", and a freshly mounted page that
    restores it has that agent, that target and the run flag set. *)
Theorem start_then_reload_restores_session :
  forall (st : State) (e : Env) (t0 : Z) (agent_id : string),
    JS.truthy (JS.trim (target st)) = true ->
    JS.otruthy (promptContent st) = true ->
    let st1 :=
      after st [StartClicked; StartSettled e t0 (Resolved agent_id)] in
    let reloaded := restoreSession (initialState (localStorage st1)) in
    localStorage st1
    = Some (Session.mk agent_id (JS.trim (target st)) t0 "running")
    /\ agentId reloaded = Some agent_id
    /\ target reloaded = JS.trim (target st)
    /\ isRunning reloaded = true.
Proof.
  intros st e t0 agent_id Ht Hp st1 reloaded.
  assert (localStorage st1
          = Some (Session.mk agent_id (JS.trim (target st)) t0 "running"))
    as E.
  { subst st1. rewrite !after_cons.
    destruct (handleStart_resets st Ht Hp) as [Est _]. cbv zeta in Est.
    destruct (startSettled_persists (fst (step st StartClicked)) e t0 agent_id)
      as [El _]. cbv zeta in El.
    unfold after. cbn [run fst]. rewrite El. do 3 f_equal.
    rewrite Est. unfold handleStart. rewrite Ht, Hp. cbn [negb orb fst].
    now state_simpl. }
  split; [exact E |]. subst reloaded. rewrite E.
  unfold restoreSession, initialState. state_simpl. repeat split.
Qed.

Lemma start_then_reload_restores_session_witness :
  let st := setTarget "  https://example.test  " Sample.ready in
  let st1 :=
    after st [StartClicked; StartSettled Sample.env 7 (Resolved "agent-9")] in
  let reloaded := restoreSession (initialState (localStorage st1)) in
  agentId reloaded = Some "agent-9"
  /\ target reloaded = "https://example.test"
  /\ isRunning reloaded = true.
Proof.
  intros st st1 reloaded.
  destruct (start_then_reload_restores_session st Sample.env 7 "agent-9"
              eq_refl eq_refl) as [_ H].
  exact H.
Defined.

(** X17.  A successful status fetch writes the status of the snapshot into
    the stored session and leaves its agent and target alone; it stores
    nothing when no session is stored.  A page reloaded afterwards
    restores the same agent and target, and its run flag is set exactly
    when the stored status is "running": for a paused run the page that
    polled shows the run as active, the reloaded one does not until its
    first fetch. *)
Theorem poll_then_reload :
  forall (st : State) (f : Fetch),
    let st' := pollOk f st in
    let s := f_status f in
    let reloaded := restoreSession (initialState (localStorage st')) in
    (localStorage st = None -> localStorage st' = None /\ agentId reloaded = None)
    /\ (forall sess,
           localStorage st = Some sess ->
           localStorage st'
           = Some (Session.mk (Session.agentId sess) (Session.target sess)
                     (Session.startedAt sess) (AgentStatus.status s))
           /\ agentId reloaded = Some (Session.agentId sess)
           /\ target reloaded = Session.target sess
           /\ isRunning reloaded = (AgentStatus.status s =? "running")%string
           /\ (AgentStatus.status s = "paused" ->
               isRunning st' = true /\ isRunning reloaded = false)).
Proof.
  intros st f st' s reloaded.
  assert (localStorage st'
          = match localStorage st with
            | Some sess =>
              Some (Session.mk (Session.agentId sess) (Session.target sess)
                      (Session.startedAt sess) (AgentStatus.status s))
            | None => None
            end) as E
      by (subst st' s; unfold pollOk, poll_resolved; now state_simpl).
  destruct (pollOk_view f st) as [_ [Er _]]. fold st' s in Er.
  split.
  - intros Hn. rewrite Hn in E. subst reloaded. rewrite E. now split.
  - intros sess Hs. rewrite Hs in E. subst reloaded. rewrite E.
    unfold restoreSession, initialState. state_simpl.
    cbn [Session.agentId Session.target Session.status].
    split; [reflexivity |]. split; [reflexivity |]. split; [reflexivity |].
    split; [reflexivity |].
    intros Hp. rewrite Er, Hp. split; reflexivity.
Qed.

Lemma poll_then_reload_witness :
  let f := Sample.fetch "paused" "testing" ["f1"] in
  let st' := pollOk f Sample.started in
  let reloaded := restoreSession (initialState (localStorage st')) in
  agentId reloaded = Some "agent-1"
  /\ isRunning st' = true /\ isRunning reloaded = false.
Proof.
  intros f st' reloaded.
  pose proof (proj2 (poll_then_reload Sample.started f)
                (Session.mk "agent-1" "https://example.test" 1700000000001
                   "running")) as H.
  cbv zeta in H. fold st' in H. fold reloaded in H.
  assert (localStorage Sample.started
          = Some (Session.mk "agent-1" "https://example.test" 1700000000001
                    "running")) as Hs by (vm_compute; reflexivity).
  destruct (H Hs) as [_ [Ha [_ [_ Hp]]]].
  split; [exact Ha |]. apply Hp. vm_compute. reflexivity.
Defined.

(* ------------------------------------------------------------------ *)
(** ** What a fetch cycle leaves alone *)

(** X18.  A failed status fetch touches nothing that the page shows of the
    run: snapshot, run flag, toasts, highlighted findings, logs, error,
    stored session, and the seen set and previous phase and status are as
    before.  The log fetch of the same cycle is still sent. *)
Theorem failed_status_fetch_keeps_state :
  forall (st : State) (a : string) (envs : nat -> Env) (err : ApiError),
    agentId st = Some a -> JS.truthy a = true ->
    let r := step st (StatusSettled envs (Rejected err)) in
    let st' := fst r in
    status st' = status st
    /\ isRunning st' = isRunning st
    /\ toasts st' = toasts st
    /\ newFindingIds st' = newFindingIds st
    /\ logs st' = logs st
    /\ error st' = error st
    /\ localStorage st' = localStorage st
    /\ seenFindingIdsRef st' = seenFindingIdsRef st
    /\ prevPhaseRef st' = prevPhaseRef st
    /\ prevStatusRef st' = prevStatusRef st
    /\ In (GetLogs a 300) (snd r).
Proof.
  intros st a envs err Ha Ht r st'. subst st' r.
  cbn [step]. rewrite Ha, Ht. unfold andThenCommit.
  destruct (commit_frame st
              (fst (poll_rejected (mkClosure a (connectionLost st)) st)))
    as [p Ep].
  destruct (commit st _) as [st' out]. cbn [fst snd] in *. subst st'.
  unfold poll_rejected. state_simpl. repeat split. now left.
Qed.

Lemma failed_status_fetch_keeps_state_witness :
  let st := pollOk (Sample.fetch "running" "testing" ["f1"]) Sample.started in
  let st' := fst (step st (statusFailed Sample.err)) in
  status st' = status st /\ seenFindingIdsRef st' = ["f1"].
Proof.
  intros st st'.
  destruct (failed_status_fetch_keeps_state st "agent-1" (fun _ => mkEnv 0 "" 0)
              Sample.err eq_refl eq_refl)
    as [Hs [_ [_ [_ [_ [_ [_ [Hseen _]]]]]]]].
  split; [exact Hs | exact Hseen].
Defined.

(** X19.  The log fetch only ever changes the log list: when it fails the
    state is exactly as before (the lines already shown stay), when it
    succeeds the list is replaced by the fetched one, by the empty list if
    the answer carries none.  It sends nothing, and the failure count, the
    connection flag and the interval do not move. *)
Theorem log_fetch_only_changes_logs :
  forall (st : State) (o : Outcome (option (list AgentLog.t))),
    let r := step st (LogsSettled o) in
    let st' := fst r in
    snd r = []
    /\ st' = setLogs (logs st') st
    /\ consecutiveErrorsRef st' = consecutiveErrorsRef st
    /\ connectionLost st' = connectionLost st
    /\ pollRef st' = pollRef st
    /\ (forall err, o = Rejected err -> st' = st)
    /\ (forall l, o = Resolved (Some l) -> logs st' = l)
    /\ (o = Resolved None -> logs st' = []).
Proof.
  intros st o r st'. subst st' r. cbn [step fst snd]. unfold poll_logs.
  destruct o as [[l |] | err]; state_simpl;
    (split; [reflexivity |]); (split; [now destruct st |]);
    repeat split; congruence.
Qed.

(* ------------------------------------------------------------------ *)
(** ** Starting a run *)

Lemma or_else_default (a : option string) (d : string) :
  JS.truthy d = true -> JS.otruthy (JS.or_else a (Some d)) = true.
Proof.
  intros Hd. unfold JS.or_else. destruct (JS.otruthy a) eqn:E; [exact E |].
  exact Hd.
Qed.





Lemma log_fetch_only_changes_logs_witness :
  let line := AgentLog.mk "info" "[TOOL] nmap" "agent" in
  let st := setLogs [line] Sample.started in
  fst (step st (LogsSettled (Rejected Sample.err))) = st
  /\ logs (fst (step st (LogsSettled (Resolved None)))) = [].
Proof.
  intros line st.
  destruct (log_fetch_only_changes_logs st (Rejected Sample.err))
    as [_ [_ [_ [_ [_ [Hrej _]]]]]].
  destruct (log_fetch_only_changes_logs st (Resolved None))
    as [_ [_ [_ [_ [_ [_ [_ Hnone]]]]]]].
  split; [exact (Hrej Sample.err eq_refl) | exact (Hnone eq_refl)].
Defined.

(* ------------------------------------------------------------------ *)
(** ** Invariants of a polling session *)

Lemma commit_stable (old new : State) :
  sameDeps old new = true -> commit old new = (new, []).
Proof. intros H. unfold commit. now rewrite H. Qed.

Lemma commit_stopSettled (st : State) (o : Outcome unit) :
  commit st (handleStop_settled o st) = (handleStop_settled o st, []).
Proof.
  rewrite commit_stable; [reflexivity |].
  destruct o; cbn [handleStop_settled]; [| apply sameDeps_refl].
  unfold sameDeps. state_simpl. apply (sameDeps_refl st).
Qed.

Lemma stopSettled_step (st : State) (o : Outcome unit) :
  step st (StopSettled o) = (handleStop_settled o st, []).
Proof.
  cbn [step]. unfold andThenCommit. cbn [fst snd].
  now rewrite commit_stopSettled.
Qed.

Ltac requests_ok :=
  cbn [app]; repeat (apply Forall_cons; [tauto |]); apply Forall_nil.

(** What a render sends and starts: nothing, or one status fetch for the
    agent of the page; the agent and the flag are those of the new
    state. *)
Lemma commit_sends (old new : State) :
  agentId (fst (commit old new)) = agentId new
  /\ connectionLost (fst (commit old new)) = connectionLost new
  /\ (snd (commit old new) = []
      \/ exists a, agentId new = Some a
                   /\ snd (commit old new) = [GetStatus a]).
Proof.
  unfold commit. destruct (sameDeps old new); [cbn; tauto |].
  set (st := if JS.otruthy (agentId old) then pollingCleanup new else new).
  assert (agentId st = agentId new
          /\ connectionLost st = connectionLost new) as [Ea Ec].
  { subst st. destruct (JS.otruthy (agentId old));
      unfold pollingCleanup; state_simpl; now split. }
  unfold pollingEffect. rewrite Ea.
  destruct (agentId new) as [a |] eqn:En; [| cbn [fst snd]; tauto].
  destruct (JS.truthy a); cbn [fst snd]; state_simpl; [| tauto].
  rewrite Ea, Ec.
  split; [reflexivity | split; [reflexivity | right; now exists a]].
Qed.

Lemma removeAt_In {A : Type} (x : A) (l : list A) :
  forall i, In x (Live.removeAt i l) -> In x l.
Proof.
  unfold Live.removeAt.
  induction l as [| y l IH]; intros [| i]; cbn [firstn skipn app];
    try tauto.
  - intros H. now right.
  - intros [H | H]; [now left | right; now apply (IH i)].
Qed.

Lemma removeAt_Forall {A : Type} (P : A -> Prop) (i : nat) (l : list A) :
  Forall P l -> Forall P (Live.removeAt i l).
Proof.
  rewrite !Forall_forall. intros H x Hin.
  apply H. now apply (removeAt_In x l i).
Qed.

Lemma nth_error_Forall {A : Type} (P : A -> Prop) (i : nat) (l : list A)
    (x : A) :
  Forall P l -> nth_error l i = Some x -> P x.
Proof.
  intros H E. apply nth_error_In in E.
  rewrite Forall_forall in H. now apply H.
Qed.

(** A render of the session of [a]: its requests and the polls it starts
    are for [a]. *)
Lemma commit_session (a : string) (old new : State) :
  agentId new = Some a \/ agentId new = None ->
  let r := commit old new in
  (agentId (fst r) = Some a \/ agentId (fst r) = None)
  /\ Forall (requestFor a) (snd r)
  /\ Forall (Live.madeFor a) (Live.pollsStarted (fst r) (snd r)).
Proof.
  intros Ha r. subst r.
  destruct (commit_sends old new) as [Ea [_ Hout]].
  split; [now rewrite Ea |].
  destruct Hout as [-> | [b [Eb ->]]].
  - split; constructor.
  - assert (b = a) as -> by (destruct Ha as [Ha | Ha]; congruence).
    split; [unfold requestFor; requests_ok |].
    cbn. constructor; [reflexivity | constructor].
Qed.

(** One action in the session of [a]. *)
Lemma act_session (a : string) (w : Live.World) (x : Live.Action) :
  Live.sessionOf a w -> x <> Live.ClickStart ->
  Live.sessionOf a (fst (Live.act w x))
  /\ Forall (requestFor a) (snd (Live.act w x)).
Proof.
  intros [Ha Hfl] Hx. unfold Live.sessionOf.
  destruct x as [| i r | s | | |]; [| | | contradiction | |];
    unfold Live.act.
  - (* the interval fires *)
    destruct (pollRef (Live.page w));
      [| cbn [fst snd Live.page Live.inflight]; repeat split;
         [assumption | assumption | constructor]].
    destruct (agentId (Live.page w)) as [b |] eqn:Eb;
      [| cbn [fst snd]; rewrite Eb; repeat split;
         [now right | assumption | constructor]].
    assert (b = a) as -> by (destruct Ha; congruence).
    cbn [fst snd Live.page Live.inflight]. rewrite Eb.
    split; [split; [now left |] |].
    + apply Forall_app. split; [assumption |].
      constructor; [reflexivity | constructor].
    + unfold requestFor. requests_ok.
  - (* a request settles *)
    destruct (nth_error (Live.inflight w) i) as [f |] eqn:En;
      [| destruct r; cbn [fst snd]; repeat split;
         (assumption || constructor)].
    pose proof (nth_error_Forall _ _ _ _ Hfl En) as Hf.
    pose proof (removeAt_Forall _ i _ Hfl) as Hrest.
    destruct f as [c | c | t | b], r as [envs o | o | e t0 o | o];
      cbn [Live.madeFor] in Hf; try contradiction;
      try solve [cbn [fst snd]; repeat split; (assumption || constructor)].
    + (* a status fetch *)
      cbv zeta.
      set (handled :=
             match o with
             | Resolved s => poll_resolved c envs s (Live.page w)
             | Rejected _ => poll_rejected c (Live.page w)
             end).
      assert (agentId (fst handled) = agentId (Live.page w)
              /\ snd handled = [GetLogs a 300]) as [Eh Es].
      { subst handled.
        destruct o; unfold poll_resolved, poll_rejected; state_simpl;
          now rewrite Hf. }
      assert (agentId (fst handled) = Some a \/ agentId (fst handled) = None)
        as Ha' by now rewrite Eh.
      destruct (commit_session a (Live.page w) (fst handled) Ha')
        as [Hag [Hreq Hnew]].
      destruct (commit (Live.page w) (fst handled)) as [st' out].
      cbn [fst snd Live.page Live.inflight] in *. rewrite Es.
      split; [split; [exact Hag |] |].
      * apply Forall_app. split; [exact Hrest |].
        apply Forall_app. split; [| exact Hnew].
        constructor; [exact Hf | constructor].
      * apply Forall_app. split; [| exact Hreq].
        unfold requestFor. requests_ok.
    + (* a log fetch *)
      cbn [fst snd Live.page Live.inflight].
      split; [split; [| exact Hrest] | constructor].
      unfold poll_logs. destruct o as [[l |] | err]; state_simpl; exact Ha.
    + (* a stop request *)
      rewrite commit_stopSettled.
      cbn [fst snd Live.page Live.inflight Live.pollsStarted flat_map].
      rewrite app_nil_r.
      split; [split; [| exact Hrest] | constructor].
      destruct o; cbn [handleStop_settled]; state_simpl; exact Ha.
  - (* typing *)
    destruct (Live.formShown (Live.page w));
      cbn [fst snd Live.page Live.inflight]; state_simpl;
      repeat split; (assumption || constructor).
  - (* Stop *)
    destruct (Live.stopShown (Live.page w));
      [| cbn [fst snd]; repeat split; (assumption || constructor)].
    cbn [fst snd Live.page Live.inflight]. unfold handleStop.
    destruct (agentId (Live.page w)) as [b |] eqn:Eb;
      [| cbn [flat_map]; rewrite app_nil_r; repeat split;
         (assumption || constructor)].
    assert (b = a) as -> by (destruct Ha; congruence).
    destruct (JS.truthy a);
      [| cbn [flat_map]; rewrite app_nil_r; repeat split;
         (assumption || constructor)].
    split; [split; [exact Ha |] |].
    + apply Forall_app. split; [exact Hfl |].
      cbn. constructor; [reflexivity | constructor].
    + unfold requestFor. requests_ok.
  - (* Clear *)
    destruct (Live.clearShown (Live.page w));
      [| cbn [fst snd]; repeat split; (assumption || constructor)].
    assert (agentId (handleClear (Live.page w)) = Some a
            \/ agentId (handleClear (Live.page w)) = None) as Ha'
        by (right; unfold handleClear; now state_simpl).
    destruct (commit_session a (Live.page w) (handleClear (Live.page w)) Ha')
      as [Hag [Hreq Hnew]].
    destruct (commit (Live.page w) (handleClear (Live.page w))) as [st' out].
    cbn [fst snd Live.page Live.inflight] in *.
    split; [split; [exact Hag |] | exact Hreq].
    apply Forall_app. now split.
Qed.

(** On an idle page the same actions send nothing and leave it idle. *)
Lemma act_idle (w : Live.World) (x : Live.Action) :
  Live.idle w -> x <> Live.ClickStart ->
  Live.idle (fst (Live.act w x)) /\ snd (Live.act w x) = [].
Proof.
  intros [Ha Hfl] Hx. unfold Live.idle.
  destruct x as [| i r | s | | |]; [| | | contradiction | |];
    unfold Live.act.
  - rewrite Ha. destruct (pollRef (Live.page w)); cbn [fst snd]; tauto.
  - rewrite Hfl. destruct i; cbn [nth_error fst snd]; tauto.
  - destruct (Live.formShown (Live.page w));
      cbn [fst snd Live.page Live.inflight]; state_simpl; tauto.
  - unfold Live.stopShown. rewrite Ha. cbn [JS.otruthy andb fst snd]. tauto.
  - unfold Live.clearShown. rewrite Ha. cbn [JS.otruthy andb fst snd]. tauto.
Qed.

Lemma live_after_cons (w : Live.World) (x : Live.Action)
    (acts : list Live.Action) :
  Live.after w (x :: acts) = Live.after (fst (Live.act w x)) acts.
Proof.
  unfold Live.after. cbn [Live.run].
  destruct (Live.act w x) as [w1 out1]. cbn [fst].
  now destruct (Live.run w1 acts).
Qed.

Lemma live_run_cons (w : Live.World) (x : Live.Action)
    (acts : list Live.Action) :
  snd (Live.run w (x :: acts))
  = (snd (Live.act w x) ++ snd (Live.run (fst (Live.act w x)) acts))%list.
Proof.
  cbn [Live.run]. destruct (Live.act w x) as [w1 out1]. cbn [fst snd].
  now destruct (Live.run w1 acts).
Qed.

(** X22.  The requests of a session name its agent, in whatever order the
    callbacks run.  Take a page during or after the session of an agent:
    its agent is that one or the session was cleared, and the polls and
    stop requests in flight were made for it.  Then, short of a new start,
    whatever happens (the interval firing, requests settling in any order,
    typing, Stop, Clear), the page stays so and every request that goes
    out is a status fetch, a log fetch of 300 lines or a stop request for
    that agent.  This includes the log fetch that a poll still in flight
    sends after the session was cleared.  A page with no agent and nothing
    in flight sends no request at all. *)
Theorem session_requests_name_its_agent :
  forall (acts : list Live.Action) (w : Live.World) (a : string),
    Live.sessionOf a w -> ~ In Live.ClickStart acts ->
    Live.sessionOf a (Live.after w acts)
    /\ Forall (requestFor a) (snd (Live.run w acts))
    /\ (Live.idle w -> snd (Live.run w acts) = []).
Proof.
  induction acts as [| x acts IH]; intros w a Hs Hno.
  - cbn. repeat split; [apply Hs | apply Hs | constructor].
  - assert (x <> Live.ClickStart) as Hx
        by (intros ->; apply Hno; now left).
    assert (~ In Live.ClickStart acts) as Hno'
        by (intros Hin; apply Hno; now right).
    destruct (act_session a w x Hs Hx) as [Hs1 Hout1].
    destruct (IH _ a Hs1 Hno') as [Hs2 [Hout2 Hidle2]].
    rewrite live_after_cons, live_run_cons.
    split; [exact Hs2 |]. split.
    + apply Forall_app. now split.
    + intros Hi. destruct (act_idle w x Hi Hx) as [Hi1 ->].
      now rewrite (Hidle2 Hi1).
Qed.

Lemma session_requests_name_its_agent_witness :
  let acts :=
    [Live.TimerFires; Live.Settles 0 Live.failed; Live.ClickStop;
     Live.Settles 0 (Live.answered "completed" "report" ["f1"]);
     Live.TimerFires; Live.ClickClear; Live.Settles 3 Live.failed] in
  Live.sessionOf "agent-1" Live.started
  /\ agentId (Live.page (Live.after Live.started acts)) = None
  /\ snd (Live.run Live.started acts)
     = [GetStatus "agent-1"; GetLogs "agent-1" 300; Stop "agent-1";
        GetLogs "agent-1" 300; GetStatus "agent-1"; GetLogs "agent-1" 300]
  /\ Forall (requestFor "agent-1") (snd (Live.run Live.started acts))
  /\ snd (Live.run Live.ready (Live.Types "https://b.test" :: acts)) = [].
Proof.
  intros acts.
  assert (Live.sessionOf "agent-1" Live.started) as Hs.
  { split; [left; reflexivity |].
    vm_compute. constructor; [reflexivity | constructor]. }
  assert (~ In Live.ClickStart acts) as Hno0.
  { cbn. intros H.
    repeat (destruct H as [H | H]; [discriminate H |]). exact H. }
  assert (~ In Live.ClickStart (Live.Types "https://b.test" :: acts))
    as Hno1.
  { cbn. intros H.
    repeat (destruct H as [H | H]; [discriminate H |]). exact H. }
  destruct (session_requests_name_its_agent acts Live.started "agent-1"
              Hs Hno0) as [_ [Hall _]].
  split; [exact Hs |].
  split; [vm_compute; reflexivity |].
  split; [vm_compute; reflexivity |].
  split; [exact Hall |].
  assert (Live.sessionOf "agent-1" Live.ready /\ Live.idle Live.ready)
    as [Hs' Hi'].
  { split; [split; [right; reflexivity | constructor] | split; reflexivity]. }
  destruct (session_requests_name_its_agent
              (Live.Types "https://b.test" :: acts) Live.ready "agent-1"
              Hs' Hno1) as [_ [_ Hnone]].
  exact (Hnone Hi').
Defined.





(* ------------------------------------------------------------------ *)
(** ** Toasts from one snapshot to the next *)

(** X24.  Between two successful snapshots in a row the phase rule raises
    a toast exactly when both phases are non-empty and differ, and then
    only one, naming the new phase.  So a snapshot with an empty phase
    silences the change that follows it, and the first snapshot of a
    session, which has no phase before it, raises none. *)
Theorem phase_toast_between_snapshots :
  forall (st : State) (f1 : Fetch) (s2 : AgentStatus.t),
    let p1 := AgentStatus.phase (f_status f1) in
    let p2 := AgentStatus.phase s2 in
    (p1 <> "" /\ p2 <> "" /\ p2 <> p1 ->
     phaseToasts (pollOk f1 st) s2 = [("Phase: " ++ p2, "info")%string])
    /\ (p1 = "" \/ p2 = "" \/ p2 = p1 -> phaseToasts (pollOk f1 st) s2 = [])
    /\ (prevPhaseRef st = None -> phaseToasts st s2 = []).
Proof.
  intros st f1 s2 p1 p2.
  destruct (pollOk_refs f1 st) as [_ [Ep _]].
  unfold phaseToasts, phaseChange. rewrite Ep. unfold nextPhase. fold p1 p2.
  split; [| split].
  - intros [H1 [H2 H12]].
    assert (JS.truthy p1 = true) as T1 by (destruct p1; [contradiction | reflexivity]).
    assert (JS.truthy p2 = true) as T2 by (destruct p2; [contradiction | reflexivity]).
    rewrite T1, T1, T2. apply String.eqb_neq in H12. now rewrite H12.
  - intros [H | [H | H]].
    + rewrite H. reflexivity.
    + rewrite H. destruct (JS.truthy p1); [| reflexivity].
      now rewrite andb_false_r.
    + rewrite H. destruct (JS.truthy p1); [| reflexivity].
      now rewrite String.eqb_refl, andb_false_r.
  - intros H. now rewrite H.
Qed.

Lemma phase_toast_between_snapshots_witness :
  let f1 := Sample.fetch "running" "" [] in
  let s2 := Sample.snapshot "running" "testing" [] in
  phaseToasts (pollOk f1 (pollOk (Sample.fetch "running" "recon" [])
                            Sample.started)) s2 = [].
Proof.
  intros f1 s2.
  destruct (phase_toast_between_snapshots
              (pollOk (Sample.fetch "running" "recon" []) Sample.started)
              f1 s2) as [_ [H _]].
  exact (H (or_introl eq_refl)).
Defined.

Lemma statusTransition_silent (prev : option string) (s : AgentStatus.t) :
  ~ (prev = Some "running" /\ terminal (AgentStatus.status s) = true) ->
  statusTransition prev s = [].
Proof.
  intros Hno. unfold statusTransition.
  destruct (prevIs prev "running") eqn:Ep; [| reflexivity].
  apply prevIs_true in Ep. cbn [andb].
  destruct (String.eqb_spec (AgentStatus.status s) "completed") as [E | _];
    [exfalso; apply Hno; split; [exact Ep | now rewrite E] |].
  destruct (String.eqb_spec (AgentStatus.status s) "error") as [E | _];
    [exfalso; apply Hno; split; [exact Ep | now rewrite E] |].
  destruct (String.eqb_spec (AgentStatus.status s) "stopped") as [E | _];
    [exfalso; apply Hno; split; [exact Ep | now rewrite E] |].
  reflexivity.
Qed.

(** X25.  Between two successful snapshots in a row the status rule raises
    a toast only if the earlier one was "running" and the later one is
    terminal.  So the snapshot that follows a terminal one raises no
    status toast, nor does the one that follows a paused one, nor the
    first one after a reload. *)
Theorem status_toast_needs_running_before :
  forall (st : State) (f1 : Fetch) (s2 : AgentStatus.t),
    (statusToasts (pollOk f1 st) s2 <> [] ->
     AgentStatus.status (f_status f1) = "running"
     /\ terminal (AgentStatus.status s2) = true)
    /\ (terminal (AgentStatus.status (f_status f1)) = true ->
        statusToasts (pollOk f1 st) s2 = [])
    /\ (AgentStatus.status (f_status f1) = "paused" ->
        statusToasts (pollOk f1 st) s2 = [])
    /\ statusToasts (restoreSession (initialState (localStorage st))) s2 = [].
Proof.
  intros st f1 s2.
  destruct (pollOk_refs f1 st) as [_ [_ [Es _]]].
  unfold statusToasts. rewrite Es.
  pose proof (statusTransition_silent
                (Some (AgentStatus.status (f_status f1))) s2) as Hno.
  split; [| split; [| split]].
  - intros Hne.
    destruct (String.eqb_spec (AgentStatus.status (f_status f1)) "running")
      as [E | E].
    + split; [exact E |].
      destruct (terminal (AgentStatus.status s2)) eqn:Et; [reflexivity |].
      exfalso. apply Hne, Hno. intros [_ H]. congruence.
    + exfalso. apply Hne, Hno. intros [H _]. congruence.
  - intros Ht. apply Hno. intros [H _]. injection H as H.
    rewrite H in Ht. discriminate Ht.
  - intros Hp. apply Hno. intros [H _]. injection H as H. congruence.
  - assert (prevStatusRef (restoreSession (initialState (localStorage st)))
            = None) as ->.
    { unfold restoreSession, initialState. state_simpl.
      destruct (localStorage st); now state_simpl. }
    reflexivity.
Qed.

Lemma status_toast_needs_running_before_witness :
  let running := Sample.fetch "running" "report" ["f1"] in
  let done := Sample.fetch "completed" "report" ["f1"] in
  let st := pollOk running Sample.started in
  List.length (statusToasts st (f_status done)) = 1%nat
  /\ statusToasts (pollOk done st) (f_status done) = []
  /\ List.length
       (statusToasts (pollOk running (pollOk done st)) (f_status done))
     = 1%nat.
Proof.
  intros running done st. split; [vm_compute; reflexivity |].
  split; [| vm_compute; reflexivity].
  destruct (status_toast_needs_running_before st done (f_status done))
    as [_ [H _]].
  exact (H eq_refl).
Defined.

(** X26.  A stop that succeeded clears the run flag only until the next
    snapshot: after every successful status fetch the run flag says
    whether the fetched status is running or paused, whatever was clicked
    before. *)
Theorem snapshot_overrides_stop :
  forall (st : State) (a : string) (o : Outcome unit) (envs : nat -> Env)
         (s : AgentStatus.t),
    agentId st = Some a -> JS.truthy a = true ->
    isRunning (after st [StopSettled o; StatusSettled envs (Resolved s)])
    = ((AgentStatus.status s =? "running")
       || (AgentStatus.status s =? "paused"))%string.
Proof.
  intros st a o envs s Ha Ht. rewrite !after_cons. unfold after. cbn [run fst].
  rewrite stopSettled_step. cbn [fst].
  assert (agentId (handleStop_settled o st) = Some a) as Ha'
      by (destruct o; cbn [handleStop_settled]; state_simpl; exact Ha).
  now destruct (step_resolved (handleStop_settled o st) a envs s Ha' Ht)
    as [_ [_ [_ [Er _]]]].
Qed.

Lemma snapshot_overrides_stop_witness :
  isRunning (after Sample.started [StopSettled (Resolved tt)]) = false
  /\ isRunning
       (after Sample.started
          [StopSettled (Resolved tt);
           StatusSettled Sample.envs
             (Resolved (Sample.snapshot "running" "testing" []))]) = true.
Proof.
  split; [vm_compute; reflexivity |].
  rewrite (snapshot_overrides_stop Sample.started "agent-1" (Resolved tt)
             Sample.envs (Sample.snapshot "running" "testing" []))
    by (vm_compute; reflexivity).
  reflexivity.
Defined.

(* ------------------------------------------------------------------ *)
(** ** Report generation *)

(** X27.  Without a scan identifier in the held snapshot the report
    command does nothing.  Once its request settled the busy flag is
    cleared on either outcome; success records the report identifier and
    pushes one toast, failure sets an error text that is never empty and
    pushes none; neither touches the session, its refs, the stored record
    or the interval. *)
Theorem report_generation_outcomes :
  forall (st : State) (busy : bool) (e : Env) (o : Outcome string),
    let st' := fst (Report.handleGenerateAiReport_settled e o st) in
    ((forall s, status st = Some s ->
                JS.otruthy (AgentStatus.scan_id s) = false) ->
     Report.handleGenerateAiReport st busy = (busy, None))
    /\ snd (Report.handleGenerateAiReport_settled e o st) = false
    /\ (forall id, o = Resolved id ->
                   reportId st' = Some id /\ error st' = error st
                   /\ toasts st'
                      = addToast e "AI Report generated" "completed" (toasts st))
    /\ (forall err, o = Rejected err ->
                    JS.otruthy (error st') = true
                    /\ toasts st' = toasts st /\ reportId st' = reportId st)
    /\ agentId st' = agentId st /\ status st' = status st
       /\ isRunning st' = isRunning st /\ pollRef st' = pollRef st
       /\ localStorage st' = localStorage st
       /\ seenFindingIdsRef st' = seenFindingIdsRef st
       /\ consecutiveErrorsRef st' = consecutiveErrorsRef st.
Proof.
  intros st busy e o st'. subst st'. split; [| split; [| split; [| split]]].
  - intros Hno. unfold Report.handleGenerateAiReport.
    destruct (status st) as [s |]; [| reflexivity].
    specialize (Hno s eq_refl).
    destruct (AgentStatus.scan_id s) as [sid |]; [| reflexivity].
    cbn [JS.otruthy] in Hno. now rewrite Hno.
  - now destruct o.
  - intros id ->. unfold Report.handleGenerateAiReport_settled. state_simpl.
    repeat split.
  - intros err ->. unfold Report.handleGenerateAiReport_settled. state_simpl.
    split; [now apply or_else_default | now split].
  - destruct o; unfold Report.handleGenerateAiReport_settled; state_simpl;
      repeat split.
Qed.

Lemma report_generation_outcomes_witness :
  let st := pollOk (Sample.fetch "completed" "report" ["f1"]) Sample.started in
  Report.handleGenerateAiReport st false = (false, None)
  /\ error (fst (Report.handleGenerateAiReport_settled Sample.env
                   (Rejected Sample.err) st))
     = Some "Failed to generate AI report".
Proof.
  intros st.
  destruct (report_generation_outcomes st false Sample.env
              (Rejected Sample.err)) as [Hguard _].
  split; [| vm_compute; reflexivity].
  apply Hguard. intros s Hs.
  assert (status st = Some (Sample.snapshot "completed" "report" ["f1"]))
    as E by (vm_compute; reflexivity).
  rewrite E in Hs. injection Hs as <-. reflexivity.
Defined.
